(** * AlgoSimple trading dashboard: the view controller and its HTTP client

    A shallow embedding of

    - [trading-frontend/src/app/services/trading.service.ts]
      (the [TradingService] class and the response interfaces), and
    - [trading-frontend/src/app/components/dashboard/dashboard.component.ts]
      (the [DashboardComponent] class),

    together with the parts of ECMAScript the two classes rely on: the
    Number type (IEEE 754 binary64), its comparison, division,
    [Number::toString], [Number.prototype.toFixed] and the global
    [parseInt].

    Strings are [String.string]; every [ascii] stands for one UTF-16 code
    unit below 256. *)

From Stdlib Require Import ZArith QArith Qround Qpower Lia Bool List.
From Stdlib Require Import Ascii String DecimalString.
From Stdlib Require Import SpecFloat.
From Stdlib Require Decimal DecimalFacts DecimalPos DecimalN.
Import ListNotations.

Local Open Scope string_scope.
Local Open Scope Z_scope.

(** ** ECMAScript numbers *)

Module Js.

(** A JS Number is a binary64 value: 53 bits of precision, infinities at
    exponent 1024.  [S754_finite s m e] is (-1)^s * m * 2^e. *)
Definition number : Type := spec_float.

Definition prec : Z := 53.
Definition emax : Z := 1024.

Definition NaN : number := S754_nan.
Definition Infinity : number := S754_infinity false.

Definition is_nan (x : number) : bool :=
  match x with S754_nan => true | _ => false end.

(** The Number value for a mathematical integer: round to nearest, ties to
    even, overflow to an infinity. *)
Definition of_Z (z : Z) : number := binary_normalize prec emax z 0 false.

(** [x >= y]: false as soon as one side is NaN. *)
Definition ge (x y : number) : bool := SFleb y x.

(** [x < y]: false as soon as one side is NaN. *)
Definition lt (x y : number) : bool := SFltb x y.

(** [x / y]. *)
Definition div (x y : number) : number := SFdiv prec emax x y.

(** The mathematical value of a finite number. *)
Definition to_Q (x : number) : Q :=
  match x with
  | S754_finite s m e =>
      let v := (inject_Z (Z.pos m) * Qpower 2 e)%Q in
      if s then Qopp v else v
  | _ => 0%Q
  end.

(** *** Decimal rendering helpers *)

Definition decimal (n : Z) : string :=
  NilZero.string_of_uint (N.to_uint (Z.to_N n)).

Fixpoint zeros (n : nat) : string :=
  match n with
  | O => ""
  | S n' => String "0" (zeros n')
  end.

Definition take (n : nat) (s : string) : string := substring 0 n s.
Definition drop (n : nat) (s : string) : string := substring n (length s - n) s.

(** *** Number::toString (radix 10) *)

(** The reals that round to the positive finite [m * 2^e]: the interval
    between the midpoints with the two neighbours, closed when [m] is
    even.  The lower neighbour is half as far away when [m] is the
    smallest normal significand. *)
Definition round_lo (m : positive) (e : Z) : Q :=
  if andb (Pos.eqb m (2 ^ 52)) (Z.ltb (-1074) e)
  then (inject_Z (4 * Z.pos m - 1) * Qpower 2 (e - 2))%Q
  else (inject_Z (4 * Z.pos m - 2) * Qpower 2 (e - 2))%Q.

Definition round_hi (m : positive) (e : Z) : Q :=
  (inject_Z (4 * Z.pos m + 2) * Qpower 2 (e - 2))%Q.

Definition rounds_to (m : positive) (e : Z) (q : Q) : bool :=
  if Z.even (Z.pos m)
  then andb (Qle_bool (round_lo m e) q) (Qle_bool q (round_hi m e))
  else andb (negb (Qle_bool q (round_lo m e)))
            (negb (Qle_bool (round_hi m e) q)).

(** The least [d], searched upwards from [d0], with [q < 10^d]. *)
Fixpoint magnitude (fuel : nat) (d0 : Z) (q : Q) : Z :=
  match fuel with
  | O => d0
  | S fuel' =>
      if negb (Qle_bool (Qpower 10 d0) q) then d0
      else magnitude fuel' (d0 + 1) q
  end.

(** For [k] significant digits and magnitude [d], the digit string [s]
    (an integer with [k] digits) and exponent [n] such that
    [s * 10^(n-k)] rounds to [m * 2^e], taking the candidate closest to the
    value and the even one at a tie. *)
Definition shortest_at (m : positive) (e : Z) (d k : Z) : option (Z * Z) :=
  let x := (inject_Z (Z.pos m) * Qpower 2 e)%Q in
  let u := Qpower 10 (d - k) in
  let s1 := Qfloor (x / u)%Q in
  let s2 := s1 + 1 in
  let v1 := (inject_Z s1 * u)%Q in
  let v2 := (inject_Z s2 * u)%Q in
  let ok1 := andb (0 <? s1) (rounds_to m e v1) in
  let ok2 := rounds_to m e v2 in
  let norm s :=
    if s =? 10 ^ k then Some (10 ^ (k - 1), d + 1) else Some (s, d) in
  match ok1, ok2 with
  | false, false => None
  | true, false => norm s1
  | false, true => norm s2
  | true, true =>
      match Qcompare (x - v1)%Q (v2 - x)%Q with
      | Lt => norm s1
      | Gt => norm s2
      | Eq => if Z.even s1 then norm s1 else norm s2
      end
  end.

Fixpoint shortest (fuel : nat) (m : positive) (e : Z) (d k : Z) : Z * Z * Z :=
  match fuel with
  | O => (k, 0, d)
  | S fuel' =>
      match shortest_at m e d k with
      | Some (s, n) => (k, s, n)
      | None => shortest fuel' m e d (k + 1)
      end
  end.

Definition exponent_suffix (n : Z) : string :=
  "e" ++ (if 0 <=? n - 1 then "+" else "-") ++ decimal (Z.abs (n - 1)).

Definition toString_pos (m : positive) (e : Z) : string :=
  let x := (inject_Z (Z.pos m) * Qpower 2 e)%Q in
  let d := magnitude 700 (-330) x in
  let '(k, s, n) := shortest 17 m e d 1 in
  let ds := decimal s in
  if andb (k <=? n) (n <=? 21) then ds ++ zeros (Z.to_nat (n - k))
  else if andb (0 <? n) (n <=? 21) then
    take (Z.to_nat n) ds ++ "." ++ drop (Z.to_nat n) ds
  else if andb (-6 <? n) (n <=? 0) then
    "0." ++ zeros (Z.to_nat (- n)) ++ ds
  else if k =? 1 then ds ++ exponent_suffix n
  else take 1 ds ++ "." ++ drop 1 ds ++ exponent_suffix n.

Definition toString (x : number) : string :=
  match x with
  | S754_nan => "NaN"
  | S754_zero _ => "0"
  | S754_infinity s => if s then "-Infinity" else "Infinity"
  | S754_finite s m e =>
      if s then "-" ++ toString_pos m e else toString_pos m e
  end.

(** *** Number.prototype.toFixed *)

(** The integer [n] for which [n / 10^f - a] is as close to zero as
    possible, the larger [n] when there are two. *)
Definition nearest_scaled (a : Q) (f : nat) : Z :=
  Qfloor (a * Qpower 10 (Z.of_nat f) + (1 # 2))%Q.

(** [x.toFixed(f)] for [0 <= f <= 100]: NaN and the infinities print as
    [toString] does; a value of magnitude at least 10^21 too; otherwise
    [nearest_scaled] is printed with a point before its last [f] digits. *)
Definition toFixed (x : number) (f : nat) : string :=
  match x with
  | S754_nan | S754_infinity _ => toString x
  | S754_zero _ | S754_finite _ _ _ =>
      let s := if Qle_bool 0 (to_Q x) then "" else "-" in
      let a := to_Q (SFabs x) in
      let m :=
        if Qle_bool (Qpower 10 21) a then toString (SFabs x)
        else
          let n := nearest_scaled a f in
          let m := decimal n in
          if Nat.eqb f 0 then m
          else
            let m := if Nat.leb (length m) f
                     then zeros (f + 1 - length m) ++ m else m in
            let k := length m in
            take (k - f) m ++ "." ++ drop (k - f) m
      in s ++ m
  end.

(** *** parseInt(string) with the radix left undefined *)

(** WhiteSpace and LineTerminator code units below 256: TAB, LF, VT, FF,
    CR, SP and NBSP. *)
Definition is_white_space (c : ascii) : bool :=
  let n := nat_of_ascii c in
  existsb (Nat.eqb n) [9; 10; 11; 12; 13; 32; 160]%nat.

Fixpoint trim_start (s : string) : string :=
  match s with
  | String c s' => if is_white_space c then trim_start s' else s
  | EmptyString => s
  end.

(** The value of a digit or letter as a radix digit: 0-9, then a-z or A-Z
    for 10-35. *)
Definition digit_value (c : ascii) : option Z :=
  let n := Z.of_nat (nat_of_ascii c) in
  if andb (48 <=? n) (n <=? 57) then Some (n - 48)
  else if andb (97 <=? n) (n <=? 122) then Some (n - 87)
  else if andb (65 <=? n) (n <=? 90) then Some (n - 55)
  else None.

(** The values of the longest prefix of [s] made of radix-[R] digits. *)
Fixpoint digits_prefix (R : Z) (s : string) : list Z :=
  match s with
  | String c s' =>
      match digit_value c with
      | Some v => if v <? R then v :: digits_prefix R s' else []
      | None => []
      end
  | EmptyString => []
  end.

Definition radix_value (R : Z) (ds : list Z) : Z :=
  fold_left (fun acc d => acc * R + d) ds 0.

(** The sign, the radix and the digits [parseInt] reads: leading white space
    is skipped, one sign is accepted, [0x] or [0X] selects radix 16, and
    reading stops at the first code unit that is not a digit. *)
Definition scan_int (input : string) : bool * Z * list Z :=
  let str := trim_start input in
  let negative := match str with String "-" _ => true | _ => false end in
  let str := match str with
             | String "+" rest | String "-" rest => rest
             | _ => str
             end in
  let '(R, str) := match str with
                   | String "0" (String "x" rest)
                   | String "0" (String "X" rest) => (16, rest)
                   | _ => (10, str)
                   end in
  (negative, R, digits_prefix R str).

Definition parseInt (input : string) : number :=
  let '(negative, R, digits) := scan_int input in
  match digits with
  | [] => NaN
  | _ :: _ =>
      let mathInt := radix_value R digits in
      if mathInt =? 0 then S754_zero negative
      else of_Z (if negative then - mathInt else mathInt)
  end.

End Js.

(** ** trading.service.ts *)

Module MarketOpportunity.
Record t : Type := mk {
  symbol : string;
  price : Js.number;
  volume : string;
  volatility : Js.number;
  maTrend : Js.number;
  score : Js.number;
  recommendation : string
}.
End MarketOpportunity.

Module MarketSummary.
Record t : Type := mk {
  totalOpportunities : Js.number;
  strongBuy : Js.number;
  buy : Js.number;
  weakBuy : Js.number;
  timestamp : string
}.
End MarketSummary.

Module MarketDiscoveryResponse.
Record t : Type := mk {
  success : bool;
  summary : MarketSummary.t;
  opportunities : list MarketOpportunity.t;
  rawOutput : string;
  timestamp : string
}.
End MarketDiscoveryResponse.

(** What [HttpClient] is asked to send. *)
Inductive HttpMethod : Type := GET | POST.

Record HttpRequest : Type := {
  method : HttpMethod;
  url : string;
  params : list (string * string)
}.

(** The error value [HttpClient] hands to a subscriber's [error] callback;
    the component reads its [message] only. *)
Record HttpErrorResponse : Type := { message : string }.

Module TradingService.

Definition apiUrl : string := "http://localhost:5050/api".

Definition healthCheck : HttpRequest :=
  {| method := GET; url := apiUrl ++ "/health"; params := [] |}.

(** An argument left out ([None]) takes the default of the signature. *)
Definition getMarketDiscovery (maxStocks minPrice maxPrice : option Js.number)
  : HttpRequest :=
  let maxStocks := match maxStocks with Some v => v | None => Js.of_Z 50 end in
  let minPrice := match minPrice with Some v => v | None => Js.of_Z 0 end in
  let maxPrice := match maxPrice with Some v => v | None => Js.of_Z 200 end in
  {| method := GET;
     url := apiUrl ++ "/market-discovery";
     params := [ ("max_stocks", Js.toString maxStocks);
                 ("min_price", Js.toString minPrice);
                 ("max_price", Js.toString maxPrice) ] |}.

End TradingService.

(** *** The query string

    [HttpClient] appends the parameters to the URL in the order of the
    object literal, as [key=value] joined by [&].  Keys and values go through
    its standard codec: [encodeURIComponent], after which the escapes of
    [@ : $ , ; = ? /] are turned back into the characters. *)

(** The characters [encodeURIComponent] leaves alone: letters, digits and
    [- _ . ! ~ * ' ( )]. *)
Definition is_unreserved (c : ascii) : bool :=
  let n := nat_of_ascii c in
  orb (andb (Nat.leb 48 n) (Nat.leb n 57))
    (orb (andb (Nat.leb 65 n) (Nat.leb n 90))
       (orb (andb (Nat.leb 97 n) (Nat.leb n 122))
          (existsb (Nat.eqb n) [45; 95; 46; 33; 126; 42; 39; 40; 41]%nat))).

(** The characters whose escape the codec undoes: [@ : $ , ; = ? /]. *)
Definition is_restored (c : ascii) : bool :=
  existsb (Nat.eqb (nat_of_ascii c)) [64; 58; 36; 44; 59; 61; 63; 47]%nat.

Definition hex_digit (n : nat) : ascii :=
  match get n "0123456789ABCDEF" with
  | Some c => c
  | None => "0"%char
  end.

(** The escape [%XX] of one byte. *)
Definition percent (byte : nat) : string :=
  String "%"
    (String (hex_digit (Nat.div byte 16))
       (String (hex_digit (Nat.modulo byte 16)) "")).

(** The escape of a code unit below 256: of its one UTF-8 byte below 128,
    of its two UTF-8 bytes from 128 on. *)
Definition escape (c : ascii) : string :=
  let n := nat_of_ascii c in
  if Nat.ltb n 128 then percent n
  else percent (192 + Nat.div n 64) ++ percent (128 + Nat.modulo n 64).

Fixpoint standardEncoding (v : string) : string :=
  match v with
  | EmptyString => ""
  | String c v' =>
      (if orb (is_unreserved c) (is_restored c) then String c ""
       else escape c) ++ standardEncoding v'
  end.

Definition queryString (ps : list (string * string)) : string :=
  String.concat "&"
    (map
       (fun kv => standardEncoding (fst kv) ++ "=" ++ standardEncoding (snd kv))
       ps).

(** ** dashboard.component.ts *)

(** A call [this.tradingService.getMarketDiscovery(a, b, c).subscribe(...)]
    made by the component. *)
Record ServiceCall : Type := {
  call_maxStocks : Js.number;
  call_minPrice : Js.number;
  call_maxPrice : Js.number
}.

Definition request_of (c : ServiceCall) : HttpRequest :=
  TradingService.getMarketDiscovery
    (Some (call_maxStocks c)) (Some (call_minPrice c)) (Some (call_maxPrice c)).

Module DashboardComponent.

Record t : Type := mk {
  opportunities : list MarketOpportunity.t;
  summary : option MarketSummary.t;
  loading : bool;
  error : option string;
  maxStocks : Js.number;
  minPrice : Js.number;
  maxPrice : Js.number
}.

(** The field initialisers of the class. *)
Definition init : t :=
  {| opportunities := [];
     summary := None;
     loading := false;
     error := None;
     maxStocks := Js.of_Z 50;
     minPrice := Js.of_Z 0;
     maxPrice := Js.of_Z 200 |}.

Definition set_opportunities (v : list MarketOpportunity.t) (this : t) : t :=
  mk v (summary this) (loading this) (error this)
     (maxStocks this) (minPrice this) (maxPrice this).
Definition set_summary (v : option MarketSummary.t) (this : t) : t :=
  mk (opportunities this) v (loading this) (error this)
     (maxStocks this) (minPrice this) (maxPrice this).
Definition set_loading (v : bool) (this : t) : t :=
  mk (opportunities this) (summary this) v (error this)
     (maxStocks this) (minPrice this) (maxPrice this).
Definition set_error (v : option string) (this : t) : t :=
  mk (opportunities this) (summary this) (loading this) v
     (maxStocks this) (minPrice this) (maxPrice this).
Definition set_minPrice (v : Js.number) (this : t) : t :=
  mk (opportunities this) (summary this) (loading this) (error this)
     (maxStocks this) v (maxPrice this).
Definition set_maxPrice (v : Js.number) (this : t) : t :=
  mk (opportunities this) (summary this) (loading this) (error this)
     (maxStocks this) (minPrice this) v.

(** A method returns the component after the call and the service calls it
    subscribed to, in order. *)
Definition effect : Type := (t * list ServiceCall)%type.

Definition refreshData (this : t) : effect :=
  if Js.ge (minPrice this) (maxPrice this) then
    (set_error (Some "Minimum price must be less than maximum price") this,
     [])
  else
    let this := set_loading true this in
    let this := set_error None this in
    (this,
     [ {| call_maxStocks := maxStocks this;
          call_minPrice := minPrice this;
          call_maxPrice := maxPrice this |} ]).

(** The [next] callback of the subscription made in [refreshData]. *)
Definition refreshData_next (response : MarketDiscoveryResponse.t) (this : t)
  : t :=
  let this :=
    set_opportunities (MarketDiscoveryResponse.opportunities response) this in
  let this :=
    set_summary (Some (MarketDiscoveryResponse.summary response)) this in
  set_loading false this.

(** The [error] callback of the subscription made in [refreshData]. *)
Definition refreshData_error (err : HttpErrorResponse) (this : t) : t :=
  let this :=
    set_error (Some ("Failed to load market data: " ++ message err)) this in
  set_loading false this.

Definition ngOnInit (this : t) : effect := refreshData this.

Definition getRecommendationClass (recommendation : string) : string :=
  if String.eqb recommendation "STRONG BUY" then "strong-buy"
  else if String.eqb recommendation "BUY" then "buy"
  else if String.eqb recommendation "WEAK BUY" then "weak-buy"
  else if String.eqb recommendation "HOLD" then "hold"
  else "neutral".

Definition formatVolume (volume : string) : string :=
  let num := Js.parseInt volume in
  if Js.ge num (Js.of_Z 1000000) then
    Js.toFixed (Js.div num (Js.of_Z 1000000)) 1 ++ "M"
  else if Js.ge num (Js.of_Z 1000) then
    Js.toFixed (Js.div num (Js.of_Z 1000)) 1 ++ "K"
  else volume.

Definition setPriceRange (min max : Js.number) (this : t) : effect :=
  let this := set_minPrice min this in
  let this := set_maxPrice max this in
  refreshData this.

End DashboardComponent.

(** ** The component in its event loop

    Everything runs on one thread: a user operation runs to its end, and the
    completion of a subscribed call runs its callback later, as an event of
    its own.  [pending] are the calls subscribed to and not yet completed,
    [sent] is every call made so far, oldest first.  An [HttpClient]
    observable completes once: with a response or with an error. *)

Inductive Completion : Type :=
  | Next (response : MarketDiscoveryResponse.t)
  | Failed (err : HttpErrorResponse).

Inductive Event : Type :=
  | NgOnInit
  | RefreshData
  | SetPriceRange (min max : Js.number)
  | Complete (i : nat) (c : Completion).

Record System : Type := {
  component : DashboardComponent.t;
  pending : list ServiceCall;
  sent : list ServiceCall
}.

Definition boot : System :=
  {| component := DashboardComponent.init; pending := []; sent := [] |}.

Definition perform (sys : System) (eff : DashboardComponent.effect) : System :=
  {| component := fst eff;
     pending := (pending sys ++ snd eff)%list;
     sent := (sent sys ++ snd eff)%list |}.

Definition callback (c : Completion)
  : DashboardComponent.t -> DashboardComponent.t :=
  match c with
  | Next response => DashboardComponent.refreshData_next response
  | Failed err => DashboardComponent.refreshData_error err
  end.

Fixpoint remove_nth {A : Type} (i : nat) (l : list A) : list A :=
  match l, i with
  | [], _ => []
  | _ :: l', O => l'
  | x :: l', S i' => x :: remove_nth i' l'
  end.

(** The completion of a call that is not pending cannot happen: the event is
    then ignored. *)
Definition step (sys : System) (ev : Event) : System :=
  match ev with
  | NgOnInit => perform sys (DashboardComponent.ngOnInit (component sys))
  | RefreshData => perform sys (DashboardComponent.refreshData (component sys))
  | SetPriceRange min max =>
      perform sys (DashboardComponent.setPriceRange min max (component sys))
  | Complete i c =>
      match nth_error (pending sys) i with
      | None => sys
      | Some _ =>
          {| component := callback c (component sys);
             pending := remove_nth i (pending sys);
             sent := sent sys |}
      end
  end.

Definition run (evs : list Event) (sys : System) : System :=
  fold_left step evs sys.

(** ** Vocabulary of the statements *)

Import DashboardComponent.

(** The filter of the component satisfies [minPrice < maxPrice]. *)
Definition price_ordered (this : DashboardComponent.t) : bool :=
  Js.lt (DashboardComponent.minPrice this) (DashboardComponent.maxPrice this).

(** The bounds carried by a call satisfy [minPrice < maxPrice]. *)
Definition call_ordered (c : ServiceCall) : bool :=
  Js.lt (call_minPrice c) (call_maxPrice c).

(** The bounds carried by a call are rejected by the guard of
    [refreshData]. *)
Definition call_rejected (c : ServiceCall) : bool :=
  Js.ge (call_minPrice c) (call_maxPrice c).

(** The price bounds held by the component. *)
Definition bounds (this : DashboardComponent.t) : Js.number * Js.number :=
  (minPrice this, maxPrice this).

(** The bounds an operation asks for: [setPriceRange] names them, every
    other operation keeps the ones in place. *)
Definition requested_bounds (b : Js.number * Js.number) (ev : Event)
  : Js.number * Js.number :=
  match ev with
  | SetPriceRange min max => (min, max)
  | NgOnInit | RefreshData | Complete _ _ => b
  end.

(** A call that went past the guard of [refreshData]. *)
Definition passed_guard (c : ServiceCall) : Prop := call_rejected c = false.

(** No call in flight means not loading. *)
Definition idle_not_loading (sys : System) : Prop :=
  pending sys = [] -> loading (component sys) = false.

(** The integer [parseInt] reads from its argument: none when there is no
    digit to read. *)
Definition read_integer (input : string) : option Z :=
  let '(negative, R, digits) := Js.scan_int input in
  match digits with
  | [] => None
  | _ :: _ =>
      let mathInt := Js.radix_value R digits in
      Some (if negative then - mathInt else mathInt)
  end.

(** The significand of [m] shifted left to 53 bits, and its exponent. *)
Definition aligned (m : positive) : positive * Z :=
  shl_align m 0 (Z.pos (digits2_pos m) - 53).

(** A significand that is not negative. *)
Definition nonneg (mrs : shr_record) : Prop := 0 <= shr_m mrs.

(** A response, for the examples. *)
Definition sample_response : MarketDiscoveryResponse.t :=
  {| MarketDiscoveryResponse.success := true;
     MarketDiscoveryResponse.summary :=
       {| MarketSummary.totalOpportunities := Js.of_Z 1;
          MarketSummary.strongBuy := Js.of_Z 1;
          MarketSummary.buy := Js.of_Z 0;
          MarketSummary.weakBuy := Js.of_Z 0;
          MarketSummary.timestamp := "2025-01-01T00:00:00" |};
     MarketDiscoveryResponse.opportunities :=
       [ {| MarketOpportunity.symbol := "ACME";
            MarketOpportunity.price := Js.of_Z 42;
            MarketOpportunity.volume := "1500";
            MarketOpportunity.volatility := Js.of_Z 2;
            MarketOpportunity.maTrend := Js.of_Z 1;
            MarketOpportunity.score := Js.of_Z 90;
            MarketOpportunity.recommendation := "STRONG BUY" |} ];
     MarketDiscoveryResponse.rawOutput := "";
     MarketDiscoveryResponse.timestamp := "2025-01-01T00:00:00" |}.

(** The events of a run that are operations of the user, as opposed to
    completions of calls. *)
Definition is_user_operation (ev : Event) : bool :=
  match ev with
  | NgOnInit | RefreshData | SetPriceRange _ _ => true
  | Complete _ _ => false
  end.

Definition user_operations (evs : list Event) : nat :=
  List.length (filter is_user_operation evs).

(** The completions a run delivers to the component, oldest first: those
    of calls that were pending when they happened. *)
Definition delivered (sys : System) (ev : Event) : list Completion :=
  match ev with
  | Complete i c =>
      match nth_error (pending sys) i with
      | Some _ => [c]
      | None => []
      end
  | NgOnInit | RefreshData | SetPriceRange _ _ => []
  end.

Fixpoint deliveries (evs : list Event) (sys : System) : list Completion :=
  match evs with
  | [] => []
  | ev :: evs' => (delivered sys ev ++ deliveries evs' (step sys ev))%list
  end.

(** The response of the last success among completions, [d] when there is
    none. *)
Definition last_response (cs : list Completion)
    (d : option MarketDiscoveryResponse.t) : option MarketDiscoveryResponse.t :=
  fold_left
    (fun acc c => match c with Next r => Some r | Failed _ => acc end) cs d.

(** The three shapes [error] is ever given: null (the initial value, also
    written when a call starts), the validation message, and the message
    made from the error of one of the failures [cs] delivered so far. *)
Inductive error_shape (cs : list Completion) : option string -> Prop :=
  | error_null : error_shape cs None
  | error_validation :
      error_shape cs (Some "Minimum price must be less than maximum price")
  | error_network (err : HttpErrorResponse) :
      In (Failed err) cs ->
      error_shape cs (Some ("Failed to load market data: " ++ message err)).

(** The data the component displays: that of [response], or the initial
    empty one. *)
Definition displays (this : DashboardComponent.t)
    (response : option MarketDiscoveryResponse.t) : Prop :=
  match response with
  | None => opportunities this = [] /\ summary this = None
  | Some r =>
      opportunities this = MarketDiscoveryResponse.opportunities r /\
      summary this = Some (MarketDiscoveryResponse.summary r)
  end.

(** The call the component makes for its current filter. *)
Definition current_call (this : DashboardComponent.t) : ServiceCall :=
  {| call_maxStocks := maxStocks this;
     call_minPrice := minPrice this;
     call_maxPrice := maxPrice this |}.

(** Where the call at place [k] of [pending] stands after the events
    [evs]: the completion of an older call moves it one place down, its own
    completion takes it out (it has no place any more), and every other
    event leaves it where it is, new calls being appended behind it. *)
Fixpoint track (k : nat) (evs : list Event) : option nat :=
  match evs with
  | [] => Some k
  | Complete j _ :: evs' =>
      if Nat.ltb j k then track (Nat.pred k) evs'
      else if Nat.eqb j k then None
      else track k evs'
  | (NgOnInit | RefreshData | SetPriceRange _ _) :: evs' => track k evs'
  end.

(** The data on display [after] completions [cs] were delivered to a
    component that showed the data of [before]: those of the last success
    among [cs], and those of [before] when there is none. *)
Definition kept_or_replaced (before after : DashboardComponent.t)
    (cs : list Completion) : Prop :=
  match last_response cs None with
  | None =>
      opportunities after = opportunities before /\
      summary after = summary before
  | Some r => displays after (Some r)
  end.

(** The event assigns a message to [error]: a refresh the guard rejects, or
    the failure of a call in flight. *)
Definition writes_error (sys : System) (ev : Event) : bool :=
  match ev with
  | NgOnInit | RefreshData =>
      Js.ge (minPrice (component sys)) (maxPrice (component sys))
  | SetPriceRange min max => Js.ge min max
  | Complete i (Failed _) =>
      match nth_error (pending sys) i with
      | Some _ => true
      | None => false
      end
  | Complete _ (Next _) => false
  end.

Fixpoint error_written (evs : list Event) (sys : System) : bool :=
  match evs with
  | [] => false
  | ev :: evs' => writes_error sys ev || error_written evs' (step sys ev)
  end.

(** ** The launcher script

    The two port variables of the script that starts the backend and the
    frontend, and the address it announces for the API.  An environment
    gives the variables that are set. *)

Module Launcher.

Definition environment : Type := string -> option string.

(** [${VAR:-word}]: the value of [VAR], or [word] when [VAR] is unset or
    empty. *)
Definition or_default (value : option string) (word : string) : string :=
  match value with
  | None => word
  | Some EmptyString => word
  | Some v => v
  end.

Definition BACKEND_PORT (env : environment) : string :=
  or_default (env "PORT") "5050".

Definition FRONTEND_PORT (env : environment) : string :=
  or_default (env "FRONTEND_PORT") "4200".

(** The address after "API:" in the output of the script. *)
Definition api_address (env : environment) : string :=
  "http://localhost:" ++ BACKEND_PORT env.

(** The address after "Frontend:" in the output of the script. *)
Definition frontend_address (env : environment) : string :=
  "http://localhost:" ++ FRONTEND_PORT env.

End Launcher.

(** ** Decimal digits *)

(** The character of a decimal digit, and the text of a list of
    digits. *)
Definition digit_char (d : DecimalFacts.digits) : ascii :=
  match d with
  | DecimalFacts.d0 => "0" | DecimalFacts.d1 => "1" | DecimalFacts.d2 => "2"
  | DecimalFacts.d3 => "3" | DecimalFacts.d4 => "4" | DecimalFacts.d5 => "5"
  | DecimalFacts.d6 => "6" | DecimalFacts.d7 => "7" | DecimalFacts.d8 => "8"
  | DecimalFacts.d9 => "9"
  end%char.

Fixpoint string_of_digits (l : list DecimalFacts.digits) : string :=
  match l with
  | [] => ""
  | d :: l' => String (digit_char d) (string_of_digits l')
  end.

(** What [toFixed] prints for the integer [n] and [f] decimals: the digits
    of [n], padded to [f + 1] digits, with a point before the last [f]. *)
Definition fixed_digits (n : Z) (f : nat) : string :=
  let m := Js.decimal n in
  if Nat.eqb f 0 then m
  else
    let m := if Nat.leb (String.length m) f
             then Js.zeros (f + 1 - String.length m) ++ m else m in
    let k := String.length m in
    Js.take (k - f) m ++ "." ++ Js.drop (k - f) m.

(** * Properties *)

(** ** The built-ins on sample values *)

Example toString_samples :
  map Js.toString
    [ Js.of_Z 0; Js.of_Z 50; Js.of_Z 200; Js.of_Z (-15);
      Js.div (Js.of_Z 1) (Js.of_Z 10); Js.div (Js.of_Z 2) (Js.of_Z 3);
      Js.div (Js.of_Z 123456) (Js.of_Z 1000);
      Js.div (Js.of_Z 1) (Js.of_Z 10000000);
      Js.of_Z (2 ^ 53); Js.of_Z (10 ^ 21); Js.of_Z (10 ^ 400);
      S754_zero true; Js.NaN ]
  = [ "0"; "50"; "200"; "-15"; "0.1"; "0.6666666666666666"; "123.456";
      "1e-7"; "9007199254740992"; "1e+21"; "Infinity"; "0"; "NaN" ].
Proof. vm_compute. reflexivity. Qed.

Example toFixed_samples :
  map (fun x => Js.toFixed x 1)
    [ Js.of_Z 0; Js.of_Z (-7); Js.div (Js.of_Z 3) (Js.of_Z 2);
      Js.div (Js.of_Z 125) (Js.of_Z 100); Js.div (Js.of_Z 145) (Js.of_Z 100);
      Js.div (Js.of_Z 999999) (Js.of_Z 1000); Js.of_Z (10 ^ 21);
      Js.Infinity; Js.NaN ]
  = [ "0.0"; "-7.0"; "1.5"; "1.3"; "1.4"; "1000.0"; "1e+21"; "Infinity";
      "NaN" ].
Proof. vm_compute. reflexivity. Qed.

Example parseInt_samples :
  map Js.parseInt
    [ "500"; "  42 shares"; "-12abc"; "+7.9"; "1e3"; "0x1F"; "-0";
      "N/A"; ""; "-"; "0x"; ".5" ]
  = [ Js.of_Z 500; Js.of_Z 42; Js.of_Z (-12); Js.of_Z 7; Js.of_Z 1;
      Js.of_Z 31; S754_zero true;
      Js.NaN; Js.NaN; Js.NaN; Js.NaN; Js.NaN ].
Proof. vm_compute. reflexivity. Qed.

Example queryString_samples :
  map (fun v => queryString [("min_price", v)])
    [ "0"; "12.5"; "-3"; "NaN"; "1e+21"; "a b&c=d/e" ]
  = [ "min_price=0"; "min_price=12.5"; "min_price=-3"; "min_price=NaN";
      "min_price=1e%2B21"; "min_price=a%20b%26c=d/e" ] /\
  queryString
    (params (TradingService.getMarketDiscovery
               None (Some (Js.of_Z (10 ^ 21))) (Some Js.Infinity)))
  = "max_stocks=50&min_price=1e%2B21&max_price=Infinity".
Proof. vm_compute. split; reflexivity. Qed.

(** The division and the rounding are those of binary64: 1.45 is stored
    just below 1.45 and prints as 1.4, while 1.25 is stored exactly and
    prints as 1.3. *)
Example formatVolume_samples :
  map formatVolume
    [ "999"; "1000"; "1450000"; "1250000"; "-5000"; " 12345 shares";
      "0x1F4000"; "1000000000000000000000000000" ]
  = [ "999"; "1.0K"; "1.4M"; "1.3M"; "-5000"; "12.3K"; "2.0M"; "1e+21M" ].
Proof. vm_compute. reflexivity. Qed.

(** ** Comparison of numbers *)

Section Comparison.

Lemma compare_cont_Eq_antisym (m1 m2 : positive) :
  Pos.compare_cont Eq m2 m1 = CompOpp (Pos.compare_cont Eq m1 m2).
Proof. exact (Pos.compare_antisym m1 m2). Qed.

Lemma SFcompare_antisym (x y : Js.number) :
  SFcompare y x = option_map CompOpp (SFcompare x y).
Proof.
  destruct x as [sx | sx | | sx mx ex], y as [sy | sy | | sy my ey];
    simpl; try reflexivity;
    try (destruct sx; reflexivity);
    try (destruct sy; reflexivity);
    try (destruct sx, sy; reflexivity).
  destruct sx, sy; simpl; try reflexivity;
    rewrite (Z.compare_antisym ex ey);
    destruct (ex ?= ey); simpl; try reflexivity;
    rewrite compare_cont_Eq_antisym;
    destruct (Pos.compare_cont Eq mx my); reflexivity.
Qed.

(** [x < y] excludes [x >= y]. *)
Lemma lt_not_ge (x y : Js.number) :
  Js.lt x y = true -> Js.ge x y = false.
Proof.
  unfold Js.lt, Js.ge, SFltb, SFleb.
  rewrite (SFcompare_antisym x y).
  destruct (SFcompare x y) as [[ | | ] | ]; simpl; congruence.
Qed.

Lemma SFcompare_defined (x y : Js.number) :
  Js.is_nan x = false -> Js.is_nan y = false ->
  exists c, SFcompare x y = Some c.
Proof.
  destruct x, y; simpl; intros Hx Hy; try discriminate; eexists; reflexivity.
Qed.

(** Away from NaN, [x >= y] is the negation of [x < y]. *)
Lemma ge_negb_lt (x y : Js.number) :
  Js.is_nan x = false -> Js.is_nan y = false ->
  Js.ge x y = negb (Js.lt x y).
Proof.
  intros Hx Hy. unfold Js.lt, Js.ge, SFltb, SFleb.
  rewrite (SFcompare_antisym x y).
  destruct (SFcompare_defined x y Hx Hy) as [c ->].
  destruct c; reflexivity.
Qed.

(** A comparison with NaN is false, whichever way it is written. *)
Lemma ge_nan_l (y : Js.number) : Js.ge Js.NaN y = false.
Proof. destruct y; reflexivity. Qed.

Lemma ge_nan_r (x : Js.number) : Js.ge x Js.NaN = false.
Proof. destruct x; reflexivity. Qed.

Lemma lt_nan_l (y : Js.number) : Js.lt Js.NaN y = false.
Proof. destruct y; reflexivity. Qed.

Lemma lt_nan_r (x : Js.number) : Js.lt x Js.NaN = false.
Proof. destruct x; reflexivity. Qed.

End Comparison.

(** ** Rounding to a number of decimals *)

(** [nearest_scaled a f / 10^f] is a nearest multiple of [1 / 10^f] to [a],
    and the upper one when [a] is half way between two. *)
Lemma nearest_scaled_spec (a : Q) (f : nat) :
  (a * Qpower 10 (Z.of_nat f) - (1 # 2)
   < inject_Z (Js.nearest_scaled a f))%Q /\
  (inject_Z (Js.nearest_scaled a f)
   <= a * Qpower 10 (Z.of_nat f) + (1 # 2))%Q.
Proof.
  unfold Js.nearest_scaled.
  set (y := (a * Qpower 10 (Z.of_nat f))%Q).
  pose proof (Qfloor_le (y + (1 # 2))) as Hle.
  pose proof (Qlt_floor (y + (1 # 2))) as Hlt.
  split; [ | exact Hle].
  rewrite inject_Z_plus in Hlt.
  apply (Qplus_lt_l _ _ 1%Q).
  setoid_replace (y - (1 # 2) + 1)%Q with (y + (1 # 2))%Q by ring.
  exact Hlt.
Qed.

(** ** Integers as numbers

    An integer below 2^53 in magnitude is a Number exactly: its significand
    shifted left to 53 bits, with the matching exponent.  On such numbers
    the comparison is the one of the integers. *)

Lemma digits2_pos_iter_xO (m d : positive) :
  digits2_pos (Pos.iter xO m d) = (digits2_pos m + d)%positive.
Proof.
  induction d as [ | d IH] using Pos.peano_ind.
  - simpl. lia.
  - rewrite Pos.iter_succ. simpl. rewrite IH. lia.
Qed.

Lemma iter_xO_value (m d : positive) :
  Z.pos (Pos.iter xO m d) = Z.pos m * 2 ^ Z.pos d.
Proof.
  induction d as [ | d IH] using Pos.peano_ind.
  - simpl. lia.
  - rewrite Pos.iter_succ, Pos2Z.inj_succ, Z.pow_succ_r by lia.
    rewrite Pos2Z.inj_xO, IH. lia.
Qed.

Lemma digits2_pos_bounds (m : positive) :
  2 ^ (Z.pos (digits2_pos m) - 1) <= Z.pos m < 2 ^ Z.pos (digits2_pos m).
Proof.
  induction m as [p IH | p IH | ]; simpl digits2_pos;
    [ | | simpl; lia];
    rewrite Pos2Z.inj_succ;
    replace (Z.succ (Z.pos (digits2_pos p)) - 1)
      with (Z.succ (Z.pos (digits2_pos p) - 1)) by lia;
    rewrite !Z.pow_succ_r by lia; lia.
Qed.

Lemma digits2_pos_le_prec (m : positive) :
  Z.pos m < 2 ^ 53 -> Z.pos (digits2_pos m) <= 53.
Proof.
  intros H. destruct (digits2_pos_bounds m) as [L _].
  destruct (Z_le_gt_dec (Z.pos (digits2_pos m)) 53) as [ | G];
    [assumption | exfalso].
  assert (2 ^ 53 <= 2 ^ (Z.pos (digits2_pos m) - 1))
    by (apply Z.pow_le_mono_r; lia).
  lia.
Qed.

Lemma fexp_normal (e : Z) :
  -1074 <= e -> fexp Js.prec Js.emax (53 + e) - e = 0.
Proof. unfold fexp, emin, Js.prec, Js.emax. lia. Qed.

Lemma shr_fexp_exact (m : positive) (e : Z) :
  Z.pos (digits2_pos m) = 53 -> -1074 <= e ->
  shr_fexp Js.prec Js.emax (Z.pos m) e loc_Exact
  = ({| shr_m := Z.pos m; shr_r := false; shr_s := false |}, e).
Proof.
  intros D E. unfold shr_fexp. cbn [Zdigits2].
  rewrite D, fexp_normal by exact E. reflexivity.
Qed.

Lemma binary_round_aux_exact (s : bool) (m : positive) (e : Z) :
  Z.pos (digits2_pos m) = 53 -> -1074 <= e <= 971 ->
  binary_round_aux Js.prec Js.emax s (Z.pos m) e loc_Exact
  = S754_finite s m e.
Proof.
  intros D E. unfold binary_round_aux.
  rewrite shr_fexp_exact by (exact D || lia).
  cbn [shr_m loc_of_shr_record round_nearest_even].
  rewrite shr_fexp_exact by (exact D || lia).
  cbn [shr_m].
  replace (e <=? Js.emax - Js.prec) with true; [reflexivity |].
  symmetry. apply Z.leb_le. unfold Js.emax, Js.prec. lia.
Qed.

Lemma aligned_spec (m : positive) :
  Z.pos m < 2 ^ 53 ->
  let '(mz, ez) := aligned m in
  Z.pos (digits2_pos mz) = 53 /\
  ez = Z.pos (digits2_pos m) - 53 /\
  Z.pos mz = Z.pos m * 2 ^ (- ez).
Proof.
  intros H. apply digits2_pos_le_prec in H.
  unfold aligned, shl_align.
  destruct (Z.pos (digits2_pos m) - 53 - 0) as [ | d | d] eqn:E.
  - cbn [Z.opp]. lia.
  - lia.
  - rewrite digits2_pos_iter_xO, iter_xO_value.
    split; [lia |]. split; [reflexivity |].
    replace (- (Z.pos (digits2_pos m) - 53)) with (Z.pos d) by lia.
    reflexivity.
Qed.

Lemma binary_round_exact (s : bool) (m : positive) :
  Z.pos m < 2 ^ 53 ->
  binary_round Js.prec Js.emax s m 0
  = S754_finite s (fst (aligned m)) (snd (aligned m)).
Proof.
  intros H. pose proof (aligned_spec m H) as A.
  pose proof (digits2_pos_le_prec m H) as L.
  unfold binary_round.
  assert (F : fexp Js.prec Js.emax (Z.pos (digits2_pos m) + 0)
              = Z.pos (digits2_pos m) - 53).
  { pose proof (Pos2Z.is_pos (digits2_pos m)).
    unfold fexp, emin, Js.prec, Js.emax. lia. }
  rewrite F.
  fold (aligned m). destruct (aligned m) as [mz ez].
  destruct A as (D & E & _).
  pose proof (Pos2Z.is_pos (digits2_pos m)).
  cbn [fst snd]. apply binary_round_aux_exact; [exact D | lia].
Qed.

Lemma compare_aligned (a b : positive) :
  Z.pos a < 2 ^ 53 -> Z.pos b < 2 ^ 53 ->
  SFcompare (S754_finite false (fst (aligned a)) (snd (aligned a)))
            (S754_finite false (fst (aligned b)) (snd (aligned b)))
  = Some (Pos.compare a b).
Proof.
  intros Ha Hb.
  pose proof (aligned_spec a Ha) as A. pose proof (aligned_spec b Hb) as B.
  destruct (aligned a) as [ma ea], (aligned b) as [mb eb].
  destruct A as (Da & Ea & Va), B as (Db & Eb & Vb).
  pose proof (digits2_pos_bounds a) as Ba.
  pose proof (digits2_pos_bounds b) as Bb.
  pose proof (digits2_pos_le_prec a Ha) as La.
  pose proof (digits2_pos_le_prec b Hb) as Lb.
  cbn [SFcompare fst snd]. f_equal.
  destruct (Z.compare_spec ea eb) as [E | E | E].
  - change (Pos.compare_cont Eq ma mb) with (Z.pos ma ?= Z.pos mb).
    rewrite Va, Vb, E.
    change (a ?= b)%positive with (Z.pos a ?= Z.pos b).
    symmetry. apply Zmult_compare_compat_r.
    apply Z.lt_gt, Z.pow_pos_nonneg; lia.
  - symmetry. apply Pos.compare_lt_iff.
    assert (2 ^ Z.pos (digits2_pos a) <= 2 ^ (Z.pos (digits2_pos b) - 1))
      by (apply Z.pow_le_mono_r; lia).
    lia.
  - symmetry. apply Pos.compare_gt_iff.
    assert (2 ^ Z.pos (digits2_pos b) <= 2 ^ (Z.pos (digits2_pos a) - 1))
      by (apply Z.pow_le_mono_r; lia).
    lia.
Qed.

Lemma of_Z_pos (m : positive) :
  Z.pos m < 2 ^ 53 ->
  Js.of_Z (Z.pos m) = S754_finite false (fst (aligned m)) (snd (aligned m)).
Proof. apply binary_round_exact. Qed.

Lemma of_Z_neg (m : positive) :
  Z.pos m < 2 ^ 53 ->
  Js.of_Z (Z.neg m) = S754_finite true (fst (aligned m)) (snd (aligned m)).
Proof. apply binary_round_exact. Qed.

Lemma ge_of_Z (n k : Z) :
  - 2 ^ 53 < n < 2 ^ 53 -> 0 < k < 2 ^ 53 ->
  Js.ge (Js.of_Z n) (Js.of_Z k) = (k <=? n).
Proof.
  intros Hn Hk. unfold Js.ge, SFleb.
  destruct k as [ | k | k]; try lia.
  rewrite (of_Z_pos k) by lia.
  destruct n as [ | n | n].
  - reflexivity.
  - rewrite (of_Z_pos n) by lia.
    rewrite compare_aligned by lia.
    unfold Z.leb. cbn [Z.compare]. destruct (k ?= n)%positive; reflexivity.
  - rewrite (of_Z_neg n) by lia. reflexivity.
Qed.

Lemma ge_zero_of_Z (s : bool) (k : Z) :
  0 < k < 2 ^ 53 -> Js.ge (S754_zero s) (Js.of_Z k) = false.
Proof.
  intros Hk. destruct k as [ | k | k]; try lia.
  unfold Js.ge, SFleb. rewrite (of_Z_pos k) by lia. reflexivity.
Qed.

(** *** Rounding never yields NaN *)

Section NeverNaN.

Lemma shr_1_nonneg (mrs : shr_record) : nonneg mrs -> nonneg (shr_1 mrs).
Proof.
  unfold nonneg. destruct mrs as [m r s]. simpl.
  destruct m as [ | [p | p | ] | p]; simpl; lia.
Qed.

Lemma iter_pos_nonneg (n : positive) (mrs : shr_record) :
  nonneg mrs -> nonneg (iter_pos shr_1 n mrs).
Proof.
  revert mrs. induction n as [n IH | n IH | ]; intros mrs H; simpl.
  - apply IH, IH, shr_1_nonneg, H.
  - apply IH, IH, H.
  - apply shr_1_nonneg, H.
Qed.

Lemma shr_fexp_nonneg (m e : Z) (l : location) :
  0 <= m -> nonneg (fst (shr_fexp Js.prec Js.emax m e l)).
Proof.
  intros H. unfold shr_fexp, shr.
  assert (N : nonneg (shr_record_of_loc m l))
    by (destruct l as [ | [ | | ]]; exact H).
  destruct (fexp Js.prec Js.emax (Zdigits2 m + e) - e); simpl;
    [exact N | apply iter_pos_nonneg, N | exact N].
Qed.

Lemma round_nearest_even_nonneg (m : Z) (l : location) :
  0 <= m -> 0 <= round_nearest_even m l.
Proof.
  intros H. destruct l as [ | [ | | ]]; simpl; try lia.
  destruct (Z.even m); lia.
Qed.

Lemma binary_round_aux_not_nan (s : bool) (m e : Z) (l : location) :
  0 <= m -> binary_round_aux Js.prec Js.emax s m e l <> S754_nan.
Proof.
  intros H. unfold binary_round_aux.
  pose proof (shr_fexp_nonneg m e l H) as N1.
  destruct (shr_fexp Js.prec Js.emax m e l) as [mrs1 e1]. simpl in N1.
  pose proof
    (shr_fexp_nonneg _ e1 loc_Exact
       (round_nearest_even_nonneg _ (loc_of_shr_record mrs1) N1)) as N2.
  destruct (shr_fexp Js.prec Js.emax _ e1 loc_Exact) as [mrs2 e2]. simpl in N2.
  unfold nonneg in N2.
  destruct (shr_m mrs2) as [ | p | p]; try discriminate; try lia.
  destruct (e2 <=? Js.emax - Js.prec); discriminate.
Qed.

Lemma of_Z_not_nan (z : Z) : Js.of_Z z <> S754_nan.
Proof.
  unfold Js.of_Z, binary_normalize, binary_round.
  destruct z as [ | m | m]; [discriminate | |];
    destruct (shl_align m 0 _) as [mz ez];
    apply binary_round_aux_not_nan; lia.
Qed.

End NeverNaN.

(** ** What parseInt reads *)

Lemma parseInt_no_digits (input : string) :
  snd (Js.scan_int input) = [] -> Js.parseInt input = Js.NaN.
Proof.
  unfold Js.parseInt. destruct (Js.scan_int input) as [[negative R] digits].
  simpl. intros ->. reflexivity.
Qed.

(** [parseInt] returns NaN only when there is no digit to read. *)
Lemma parseInt_nan_iff (input : string) :
  Js.parseInt input = Js.NaN <-> snd (Js.scan_int input) = [].
Proof.
  split; [ | apply parseInt_no_digits].
  unfold Js.parseInt. destruct (Js.scan_int input) as [[negative R] digits].
  simpl. destruct digits as [ | d digits]; [reflexivity |].
  destruct (Js.radix_value R (d :: digits) =? 0); [discriminate |].
  intros H. apply of_Z_not_nan in H. destruct H.
Qed.

Lemma parseInt_read_integer (input : string) (n : Z) :
  read_integer input = Some n -> n <> 0 -> Js.parseInt input = Js.of_Z n.
Proof.
  unfold read_integer, Js.parseInt.
  destruct (Js.scan_int input) as [[negative R] digits].
  destruct digits as [ | d digits]; [discriminate |].
  intros E N. injection E as E.
  destruct (Z.eqb_spec (Js.radix_value R (d :: digits)) 0) as [Z0 | _].
  - rewrite Z0 in E. destruct negative; simpl in E; congruence.
  - rewrite E. reflexivity.
Qed.

(** The comparison of what [parseInt] returns with a positive integer is
    the comparison of the integer read. *)
Lemma parseInt_ge (input : string) (n k : Z) :
  read_integer input = Some n ->
  - 2 ^ 53 < n < 2 ^ 53 -> 0 < k < 2 ^ 53 ->
  Js.ge (Js.parseInt input) (Js.of_Z k) = (k <=? n).
Proof.
  intros E Hn Hk. destruct (Z.eq_dec n 0) as [-> | N].
  - replace (k <=? 0) with false by (symmetry; apply Z.leb_gt; lia).
    revert E. unfold read_integer, Js.parseInt.
    destruct (Js.scan_int input) as [[negative R] digits].
    destruct digits as [ | d digits]; [discriminate |].
    intros E. injection E as E.
    replace (Js.radix_value R (d :: digits) =? 0) with true
      by (symmetry; apply Z.eqb_eq; destruct negative; lia).
    apply ge_zero_of_Z, Hk.
  - rewrite (parseInt_read_integer input n E N). apply ge_of_Z; assumption.
Qed.

(** ** refreshData *)

Section Refresh.

Variable this : DashboardComponent.t.

Lemma refreshData_rejected :
  Js.ge (minPrice this) (maxPrice this) = true ->
  refreshData this =
  (set_error (Some "Minimum price must be less than maximum price") this, []).
Proof. intros H. unfold refreshData. rewrite H. reflexivity. Qed.

Lemma refreshData_accepted :
  Js.ge (minPrice this) (maxPrice this) = false ->
  refreshData this =
  (set_error None (set_loading true this),
   [ {| call_maxStocks := maxStocks this;
        call_minPrice := minPrice this;
        call_maxPrice := maxPrice this |} ]).
Proof. intros H. unfold refreshData. rewrite H. reflexivity. Qed.

Lemma refreshData_ordered :
  price_ordered this = true ->
  refreshData this =
  (set_error None (set_loading true this),
   [ {| call_maxStocks := maxStocks this;
        call_minPrice := minPrice this;
        call_maxPrice := maxPrice this |} ]).
Proof. intros H. apply refreshData_accepted, lt_not_ge, H. Qed.

(** Neither bound is written by a refresh. *)
Lemma refreshData_bounds :
  minPrice (fst (refreshData this)) = minPrice this /\
  maxPrice (fst (refreshData this)) = maxPrice this.
Proof.
  unfold refreshData.
  destruct (Js.ge (minPrice this) (maxPrice this)); split; reflexivity.
Qed.

(** Every call a refresh makes carries the bounds of the component, and they
    passed the guard. *)
Lemma refreshData_calls (c : ServiceCall) :
  In c (snd (refreshData this)) ->
  call_rejected c = false /\
  call_minPrice c = minPrice this /\ call_maxPrice c = maxPrice this.
Proof.
  unfold refreshData, call_rejected.
  destruct (Js.ge (minPrice this) (maxPrice this)) eqn:G; simpl.
  - intros [].
  - intros [<- | []]. simpl. auto.
Qed.

End Refresh.

(** A refresh with [minPrice < maxPrice] makes one call.  When its error
    callback runs next, with nothing in between, [error] is "Failed to load
    market data: " followed by [err.message], [loading] is false, and
    [opportunities] and [summary] are what they were before the refresh. *)
Lemma refresh_then_failure (this : DashboardComponent.t)
    (err : HttpErrorResponse) :
  price_ordered this = true ->
  let '(this1, calls) := refreshData this in
  let this2 := refreshData_error err this1 in
  calls = [ {| call_maxStocks := maxStocks this;
               call_minPrice := minPrice this;
               call_maxPrice := maxPrice this |} ] /\
  error this2 = Some ("Failed to load market data: " ++ message err) /\
  error this2 <> Some "" /\
  error this2 <> None /\
  loading this2 = false /\
  opportunities this2 = opportunities this /\
  summary this2 = summary this.
Proof.
  intros H. rewrite (refreshData_ordered this H). simpl.
  repeat split; discriminate.
Qed.

(** When its next callback runs next, with nothing in between,
    [opportunities] and [summary] are the two fields of the response,
    [loading] is false and [error] is null. *)
Lemma refresh_then_success (this : DashboardComponent.t)
    (response : MarketDiscoveryResponse.t) :
  price_ordered this = true ->
  let '(this1, calls) := refreshData this in
  let this2 := refreshData_next response this1 in
  calls = [ {| call_maxStocks := maxStocks this;
               call_minPrice := minPrice this;
               call_maxPrice := maxPrice this |} ] /\
  opportunities this2 = MarketDiscoveryResponse.opportunities response /\
  summary this2 = Some (MarketDiscoveryResponse.summary response) /\
  loading this2 = false /\
  error this2 = None.
Proof.
  intros H. rewrite (refreshData_ordered this H). simpl. auto.
Qed.

(** What each callback writes, whatever the component holds when it runs. *)
Lemma refreshData_next_writes (response : MarketDiscoveryResponse.t)
    (this : DashboardComponent.t) :
  refreshData_next response this
  = set_loading false
      (set_summary (Some (MarketDiscoveryResponse.summary response))
         (set_opportunities (MarketDiscoveryResponse.opportunities response)
            this)) /\
  error (refreshData_next response this) = error this.
Proof. split; reflexivity. Qed.

Lemma refreshData_error_writes (err : HttpErrorResponse)
    (this : DashboardComponent.t) :
  refreshData_error err this
  = set_loading false
      (set_error (Some ("Failed to load market data: " ++ message err)) this) /\
  opportunities (refreshData_error err this) = opportunities this /\
  summary (refreshData_error err this) = summary this.
Proof. repeat split. Qed.

(** ** setPriceRange *)

Lemma setPriceRange_unfold (min max : Js.number)
    (this : DashboardComponent.t) :
  setPriceRange min max this
  = refreshData (set_maxPrice max (set_minPrice min this)).
Proof. reflexivity. Qed.

Lemma setPriceRange_bounds (min max : Js.number)
    (this : DashboardComponent.t) :
  minPrice (fst (setPriceRange min max this)) = min /\
  maxPrice (fst (setPriceRange min max this)) = max.
Proof.
  rewrite setPriceRange_unfold.
  destruct (refreshData_bounds (set_maxPrice max (set_minPrice min this)))
    as [-> ->].
  split; reflexivity.
Qed.

Lemma setPriceRange_calls (min max : Js.number) (this : DashboardComponent.t)
    (c : ServiceCall) :
  In c (snd (setPriceRange min max this)) ->
  call_rejected c = false /\ call_minPrice c = min /\ call_maxPrice c = max.
Proof.
  rewrite setPriceRange_unfold. intros H.
  apply refreshData_calls in H. exact H.
Qed.

(** C8.  [setPriceRange(10, 100)] sets [minPrice] to 10 and [maxPrice] to
    100 and makes exactly one service call, with those bounds (sent as
    min_price=10 and max_price=100).  For any bounds, [setPriceRange] stores
    both and then runs [refreshData] on the result, so the validation of
    [refreshData] decides whether a call is made. *)
Theorem setPriceRange_then_refresh :
  (forall this : DashboardComponent.t,
     let '(this', calls) :=
       setPriceRange (Js.of_Z 10) (Js.of_Z 100) this in
     minPrice this' = Js.of_Z 10 /\
     maxPrice this' = Js.of_Z 100 /\
     calls = [ {| call_maxStocks := maxStocks this;
                  call_minPrice := Js.of_Z 10;
                  call_maxPrice := Js.of_Z 100 |} ] /\
     map (fun c => tl (params (request_of c))) calls
     = [ [ ("min_price", "10"); ("max_price", "100") ] ]) /\
  (forall (min max : Js.number) (this : DashboardComponent.t),
     let this0 := set_maxPrice max (set_minPrice min this) in
     minPrice this0 = min /\
     maxPrice this0 = max /\
     setPriceRange min max this = refreshData this0 /\
     setPriceRange min max this =
     if Js.ge min max
     then (set_error (Some "Minimum price must be less than maximum price")
             this0, [])
     else (set_error None (set_loading true this0),
           [ {| call_maxStocks := maxStocks this;
                call_minPrice := min;
                call_maxPrice := max |} ])).
Proof.
  split.
  - intros this. rewrite setPriceRange_unfold.
    rewrite refreshData_accepted by reflexivity.
    repeat split.
  - intros min max this this0.
    split; [reflexivity |]. split; [reflexivity |]. split; [reflexivity |].
    rewrite setPriceRange_unfold. fold this0.
    destruct (Js.ge min max) eqn:G.
    + apply refreshData_rejected. exact G.
    + apply refreshData_accepted. exact G.
Qed.

(** ** Sequences of operations *)

Lemma run_snoc (evs : list Event) (ev : Event) (sys : System) :
  run (evs ++ [ev]) sys = step (run evs sys) ev.
Proof. unfold run. rewrite fold_left_app. reflexivity. Qed.

Lemma nth_error_last {A : Type} (l : list A) (x : A) :
  nth_error (l ++ [x])%list (List.length l) = Some x.
Proof. induction l as [ | y l IH]; simpl; [reflexivity | exact IH]. Qed.

Lemma remove_nth_last {A : Type} (l : list A) (x : A) :
  remove_nth (List.length l) (l ++ [x])%list = l.
Proof.
  induction l as [ | y l IH]; simpl; [reflexivity | rewrite IH; reflexivity].
Qed.

(** In the event loop, a refresh that passes the guard followed by the
    completion of the call it made is the refresh of the component followed
    by the callback; the other calls in flight stay in flight. *)
Lemma refresh_then_complete (sys : System) (c : Completion) :
  price_ordered (component sys) = true ->
  let sys' := run [RefreshData; Complete (List.length (pending sys)) c] sys in
  component sys' = callback c (fst (refreshData (component sys))) /\
  pending sys' = pending sys /\
  sent sys'
  = (sent sys ++
     [ {| call_maxStocks := maxStocks (component sys);
          call_minPrice := minPrice (component sys);
          call_maxPrice := maxPrice (component sys) |} ])%list.
Proof.
  intros H. unfold run. cbn [fold_left step].
  rewrite (refreshData_ordered (component sys) H).
  cbn [perform fst snd pending sent component].
  rewrite nth_error_last, remove_nth_last. repeat split.
Qed.

(** *** The price bounds held by the component *)

Lemma callback_bounds (c : Completion) (this : DashboardComponent.t) :
  bounds (callback c this) = bounds this.
Proof. destruct c; reflexivity. Qed.

Lemma step_bounds (sys : System) (ev : Event) :
  bounds (component (step sys ev))
  = requested_bounds (bounds (component sys)) ev.
Proof.
  destruct ev as [ | | min max | i c]; simpl; unfold bounds.
  - unfold ngOnInit.
    destruct (refreshData_bounds (component sys)) as [-> ->]. reflexivity.
  - destruct (refreshData_bounds (component sys)) as [-> ->]. reflexivity.
  - destruct (setPriceRange_bounds min max (component sys)) as [-> ->].
    reflexivity.
  - destruct (nth_error (pending sys) i); [apply callback_bounds | reflexivity].
Qed.

Lemma run_bounds (evs : list Event) (sys : System) :
  bounds (component (run evs sys))
  = fold_left requested_bounds evs (bounds (component sys)).
Proof.
  revert sys. induction evs as [ | ev evs IH]; intros sys; simpl.
  - reflexivity.
  - rewrite IH, step_bounds. reflexivity.
Qed.

Lemma requested_bounds_ordered (evs : list Event)
    (b : Js.number * Js.number) :
  Js.lt (fst b) (snd b) = true ->
  (forall min max, In (SetPriceRange min max) evs -> Js.lt min max = true) ->
  Js.lt (fst (fold_left requested_bounds evs b))
        (snd (fold_left requested_bounds evs b)) = true.
Proof.
  revert b. induction evs as [ | ev evs IH]; intros b Hb Hall; simpl.
  - exact Hb.
  - apply IH.
    + destruct ev as [ | | min max | i c]; simpl; try exact Hb.
      apply Hall. left. reflexivity.
    + intros min max Hin. apply Hall. right. exact Hin.
Qed.

(** C2, as the code has it.  The component starts with [minPrice = 0] and
    [maxPrice = 200].  [ngOnInit], [refreshData] and the two callbacks never
    write the bounds, and [setPriceRange(min, max)] stores [min] and [max] as
    they are given: after any sequence of operations the bounds are those of
    the last [setPriceRange], or the initial ones.  So [minPrice < maxPrice]
    holds after every sequence whose [setPriceRange] calls all have
    [min < max]. *)
Theorem price_order_after_operations (evs : list Event) :
  let this := component (run evs boot) in
  (minPrice this, maxPrice this)
  = fold_left requested_bounds evs (Js.of_Z 0, Js.of_Z 200) /\
  ((forall min max, In (SetPriceRange min max) evs -> Js.lt min max = true) ->
   price_ordered this = true).
Proof.
  intros this.
  assert (B : bounds this
              = fold_left requested_bounds evs (Js.of_Z 0, Js.of_Z 200))
    by apply (run_bounds evs boot).
  split; [exact B |].
  intros Hall. unfold price_ordered.
  change (Js.lt (fst (bounds this)) (snd (bounds this)) = true).
  rewrite B. apply requested_bounds_ordered; [reflexivity | exact Hall].
Qed.

Lemma price_order_after_operations_witness :
  let evs := [ NgOnInit; SetPriceRange (Js.of_Z 10) (Js.of_Z 100);
               Complete 0 (Next sample_response) ] in
  (forall min max, In (SetPriceRange min max) evs -> Js.lt min max = true) /\
  price_ordered (component (run evs boot)) = true.
Proof.
  intros evs.
  assert (H : forall min max,
             In (SetPriceRange min max) evs -> Js.lt min max = true).
  { intros min max [E | [E | [E | []]]]; try discriminate E.
    injection E as <- <-. reflexivity. }
  split; [exact H |].
  exact (proj2 (price_order_after_operations evs) H).
Defined.

(** The invariant of C2 is broken by the first [setPriceRange] whose
    arguments are not ordered: from the initial state, [setPriceRange(100,
    10)] leaves [minPrice = 100] and [maxPrice = 10]. *)
Lemma setPriceRange_breaks_price_order :
  price_ordered (component boot) = true /\
  let sys := run [SetPriceRange (Js.of_Z 100) (Js.of_Z 10)] boot in
  minPrice (component sys) = Js.of_Z 100 /\
  maxPrice (component sys) = Js.of_Z 10 /\
  price_ordered (component sys) = false.
Proof. vm_compute. repeat split. Qed.

(** *** The calls that reach the service *)

Lemma perform_sent (sys : System) (eff : DashboardComponent.effect) :
  Forall passed_guard (sent sys) ->
  Forall passed_guard (snd eff) ->
  Forall passed_guard (sent (perform sys eff)).
Proof. intros H1 H2. simpl. apply Forall_app. split; assumption. Qed.

Lemma refreshData_passed_guard (this : DashboardComponent.t) :
  Forall passed_guard (snd (refreshData this)).
Proof.
  apply Forall_forall. intros c Hc.
  apply (refreshData_calls this c Hc).
Qed.

Lemma step_sent (sys : System) (ev : Event) :
  Forall passed_guard (sent sys) ->
  Forall passed_guard (sent (step sys ev)).
Proof.
  intros H. destruct ev as [ | | min max | i c]; simpl.
  - apply (perform_sent sys); [exact H | apply refreshData_passed_guard].
  - apply (perform_sent sys); [exact H | apply refreshData_passed_guard].
  - apply (perform_sent sys); [exact H |].
    rewrite setPriceRange_unfold. apply refreshData_passed_guard.
  - destruct (nth_error (pending sys) i); exact H.
Qed.

(** Whatever the operations, a pair of bounds that the guard of
    [refreshData] rejects ([minPrice >= maxPrice]) never reaches the
    service. *)
Lemma sent_passed_guard (evs : list Event) :
  Forall passed_guard (sent (run evs boot)).
Proof.
  induction evs as [ | ev evs IH] using rev_ind.
  - constructor.
  - rewrite run_snoc. apply step_sent, IH.
Qed.

(** And when neither bound of a call is NaN, they satisfy
    [minPrice < maxPrice]. *)
Lemma sent_ordered_unless_nan (evs : list Event) (c : ServiceCall) :
  In c (sent (run evs boot)) ->
  Js.is_nan (call_minPrice c) = false ->
  Js.is_nan (call_maxPrice c) = false ->
  call_ordered c = true.
Proof.
  intros Hin Hmin Hmax.
  pose proof (sent_passed_guard evs) as G.
  rewrite Forall_forall in G. specialize (G c Hin).
  unfold passed_guard, call_rejected in G. unfold call_ordered.
  rewrite (ge_negb_lt _ _ Hmin Hmax) in G.
  destruct (Js.lt (call_minPrice c) (call_maxPrice c));
    [reflexivity | discriminate G].
Qed.

(** C3 at a NaN bound.  From the initial state, [setPriceRange(NaN, 100)]
    passes the guard, because [NaN >= 100] is false, and the call
    [getMarketDiscovery(50, NaN, 100)] is made, although [NaN < 100] is false
    as well. *)
Theorem nan_bound_reaches_service :
  let sys := run [SetPriceRange Js.NaN (Js.of_Z 100)] boot in
  sent sys = [ {| call_maxStocks := Js.of_Z 50;
                  call_minPrice := Js.NaN;
                  call_maxPrice := Js.of_Z 100 |} ] /\
  map call_ordered (sent sys) = [false] /\
  map call_rejected (sent sys) = [false] /\
  map (fun c => queryString (params (request_of c))) (sent sys)
  = ["max_stocks=50&min_price=NaN&max_price=100"].
Proof. vm_compute. repeat split. Qed.

(** *** Calls in flight and the [loading] flag *)

Lemma callback_not_loading (c : Completion) (this : DashboardComponent.t) :
  loading (callback c this) = false.
Proof. destruct c; reflexivity. Qed.

Lemma perform_refresh_idle (sys : System) (this0 : DashboardComponent.t) :
  loading this0 = loading (component sys) ->
  idle_not_loading sys ->
  idle_not_loading (perform sys (refreshData this0)).
Proof.
  unfold idle_not_loading, perform, refreshData. intros L Inv.
  destruct (Js.ge (minPrice this0) (maxPrice this0)); simpl.
  - rewrite app_nil_r. intros P. rewrite L. apply Inv, P.
  - intros P. apply app_eq_nil in P. destruct P as [_ P]. discriminate P.
Qed.

Lemma step_idle (sys : System) (ev : Event) :
  idle_not_loading sys -> idle_not_loading (step sys ev).
Proof.
  intros Inv. destruct ev as [ | | min max | i c]; simpl.
  - apply perform_refresh_idle; [reflexivity | exact Inv].
  - apply perform_refresh_idle; [reflexivity | exact Inv].
  - rewrite setPriceRange_unfold.
    apply perform_refresh_idle; [reflexivity | exact Inv].
  - destruct (nth_error (pending sys) i); [ | exact Inv].
    intros _. apply callback_not_loading.
Qed.

(** Whenever no call is in flight, [loading] is false. *)
Lemma idle_implies_not_loading (evs : list Event) :
  idle_not_loading (run evs boot).
Proof.
  induction evs as [ | ev evs IH] using rev_ind.
  - intros _. reflexivity.
  - rewrite run_snoc. apply step_idle, IH.
Qed.

(** C1, as the code has it.  When [minPrice >= maxPrice], [refreshData]
    subscribes to no service call, sets [error] to exactly "Minimum price
    must be less than maximum price" and returns without writing [loading],
    which stays as it was.  After any sequence of operations that leaves no
    call in flight, it was false and is false after the refresh. *)
Theorem refreshData_invalid_range :
  (forall this : DashboardComponent.t,
     Js.ge (minPrice this) (maxPrice this) = true ->
     let '(this', calls) := refreshData this in
     calls = [] /\
     error this' = Some "Minimum price must be less than maximum price" /\
     loading this' = loading this) /\
  (forall evs : list Event,
     let sys := run evs boot in
     pending sys = [] ->
     Js.ge (minPrice (component sys)) (maxPrice (component sys)) = true ->
     loading (fst (refreshData (component sys))) = false).
Proof.
  split.
  - intros this H. rewrite (refreshData_rejected this H). simpl. auto.
  - intros evs sys P H. rewrite (refreshData_rejected _ H). simpl.
    apply (idle_implies_not_loading evs), P.
Qed.

Lemma refreshData_invalid_range_witness :
  let evs := [ SetPriceRange (Js.of_Z 100) (Js.of_Z 10) ] in
  let sys := run evs boot in
  pending sys = [] /\
  Js.ge (minPrice (component sys)) (maxPrice (component sys)) = true /\
  loading (fst (refreshData (component sys))) = false.
Proof.
  intros evs sys.
  assert (P : pending sys = []) by reflexivity.
  assert (H : Js.ge (minPrice (component sys)) (maxPrice (component sys))
              = true) by reflexivity.
  split; [exact P |]. split; [exact H |].
  exact (proj2 refreshData_invalid_range evs P H).
Defined.

(** C1 while a call is in flight.  After [ngOnInit] the first call is
    pending and [loading] is true; [setPriceRange(100, 10)] then leaves the
    bounds 100 and 10.  A refresh of that component makes no call and sets
    the message, and [loading] is still true after it. *)
Lemma invalid_refresh_while_loading :
  let this :=
    component
      (run [ NgOnInit; SetPriceRange (Js.of_Z 100) (Js.of_Z 10) ] boot) in
  Js.ge (minPrice this) (maxPrice this) = true /\
  snd (refreshData this) = [] /\
  error (fst (refreshData this))
  = Some "Minimum price must be less than maximum price" /\
  loading (fst (refreshData this)) = true.
Proof. vm_compute. repeat split. Qed.

(** ** The client *)

(** C9.  For all three arguments, [getMarketDiscovery] asks for one GET of
    [/market-discovery] under the API base, with the parameters
    [max_stocks], [min_price] and [max_price] set to the arguments as
    [toString] prints them; nothing is checked, so every triple yields a
    request.  The initial load ([ngOnInit] on the initial component) makes
    one call, whose query is max_stocks=50&min_price=0&max_price=200. *)
Theorem getMarketDiscovery_request :
  (forall maxStocks minPrice maxPrice : Js.number,
     TradingService.getMarketDiscovery
       (Some maxStocks) (Some minPrice) (Some maxPrice)
     = {| method := GET;
          url := "http://localhost:5050/api/market-discovery";
          params := [ ("max_stocks", Js.toString maxStocks);
                      ("min_price", Js.toString minPrice);
                      ("max_price", Js.toString maxPrice) ] |}) /\
  map (fun c => (method (request_of c), url (request_of c),
                 queryString (params (request_of c))))
      (sent (run [NgOnInit] boot))
  = [ (GET, "http://localhost:5050/api/market-discovery",
       "max_stocks=50&min_price=0&max_price=200") ].
Proof.
  split.
  - intros maxStocks minPrice maxPrice. reflexivity.
  - vm_compute. reflexivity.
Qed.

(** ** Presentation helpers *)

(** C6.  [getRecommendationClass] compares its argument with the four labels
    exactly as they are spelled, upper case, and answers "neutral" for every
    other string. *)
Theorem getRecommendationClass_exact_match :
  getRecommendationClass "STRONG BUY" = "strong-buy" /\
  getRecommendationClass "BUY" = "buy" /\
  getRecommendationClass "WEAK BUY" = "weak-buy" /\
  getRecommendationClass "HOLD" = "hold" /\
  getRecommendationClass "SELL" = "neutral" /\
  getRecommendationClass "buy" = "neutral" /\
  forall r : string,
    (r = "STRONG BUY" /\ getRecommendationClass r = "strong-buy") \/
    (r = "BUY" /\ getRecommendationClass r = "buy") \/
    (r = "WEAK BUY" /\ getRecommendationClass r = "weak-buy") \/
    (r = "HOLD" /\ getRecommendationClass r = "hold") \/
    (r <> "STRONG BUY" /\ r <> "BUY" /\ r <> "WEAK BUY" /\ r <> "HOLD" /\
     getRecommendationClass r = "neutral").
Proof.
  do 6 (split; [reflexivity |]).
  intros r. unfold getRecommendationClass.
  destruct (String.eqb_spec r "STRONG BUY") as [-> | N1]; [left; auto |].
  destruct (String.eqb_spec r "BUY") as [-> | N2]; [right; left; auto |].
  destruct (String.eqb_spec r "WEAK BUY") as [-> | N3];
    [right; right; left; auto |].
  destruct (String.eqb_spec r "HOLD") as [-> | N4];
    [right; right; right; left; auto |].
  right; right; right; right. auto.
Qed.

Lemma formatVolume_nan (volume : string) :
  Js.parseInt volume = Js.NaN -> formatVolume volume = volume.
Proof.
  intros H. unfold formatVolume. rewrite H, !ge_nan_l. reflexivity.
Qed.

(** C7.  [formatVolume] reads its argument with [parseInt] and prints: a
    number of at least 1000000 divided by 1000000, with one decimal, then
    "M"; otherwise a number of at least 1000 divided by 1000, with one
    decimal, then "K"; otherwise the argument itself.  When the integer read
    is below 2^53 in magnitude the two tests are the tests [1000000 <= n]
    and [1000 <= n] on that integer. *)
Theorem formatVolume_thresholds :
  formatVolume "500" = "500" /\
  formatVolume "1500" = "1.5K" /\
  formatVolume "2500000" = "2.5M" /\
  formatVolume "999999" = "1000.0K" /\
  (forall volume : string,
     let num := Js.parseInt volume in
     (Js.ge num (Js.of_Z 1000000) = true /\
      formatVolume volume
      = Js.toFixed (Js.div num (Js.of_Z 1000000)) 1 ++ "M") \/
     (Js.ge num (Js.of_Z 1000000) = false /\
      Js.ge num (Js.of_Z 1000) = true /\
      formatVolume volume
      = Js.toFixed (Js.div num (Js.of_Z 1000)) 1 ++ "K") \/
     (Js.ge num (Js.of_Z 1000000) = false /\
      Js.ge num (Js.of_Z 1000) = false /\
      formatVolume volume = volume)) /\
  (forall (volume : string) (n : Z),
     read_integer volume = Some n ->
     - 2 ^ 53 < n < 2 ^ 53 ->
     formatVolume volume
     = if 1000000 <=? n then
         Js.toFixed (Js.div (Js.of_Z n) (Js.of_Z 1000000)) 1 ++ "M"
       else if 1000 <=? n then
         Js.toFixed (Js.div (Js.of_Z n) (Js.of_Z 1000)) 1 ++ "K"
       else volume).
Proof.
  do 4 (split; [vm_compute; reflexivity |]).
  split.
  - intros volume num. unfold formatVolume. fold num.
    destruct (Js.ge num (Js.of_Z 1000000)) eqn:M; [left; auto |].
    destruct (Js.ge num (Js.of_Z 1000)) eqn:K; [right; left; auto |].
    right; right; auto.
  - intros volume n E Hn. unfold formatVolume.
    rewrite (parseInt_ge volume n 1000000 E Hn) by lia.
    rewrite (parseInt_ge volume n 1000 E Hn) by lia.
    destruct (Z.leb_spec 1000000 n) as [M | M].
    + rewrite (parseInt_read_integer volume n E) by lia. reflexivity.
    + destruct (Z.leb_spec 1000 n) as [K | K]; [ | reflexivity].
      rewrite (parseInt_read_integer volume n E) by lia. reflexivity.
Qed.

Lemma formatVolume_thresholds_witness :
  read_integer "1234567" = Some 1234567 /\
  - 2 ^ 53 < 1234567 < 2 ^ 53 /\
  formatVolume "1234567"
  = Js.toFixed (Js.div (Js.of_Z 1234567) (Js.of_Z 1000000)) 1 ++ "M".
Proof.
  assert (E : read_integer "1234567" = Some 1234567) by reflexivity.
  assert (B : - 2 ^ 53 < 1234567 < 2 ^ 53) by (split; reflexivity).
  split; [exact E |]. split; [exact B |].
  exact (proj2 (proj2 (proj2 (proj2 (proj2 formatVolume_thresholds))))
           "1234567" 1234567 E B).
Defined.

(** C10.  When [parseInt] finds no digit to read (after the white space,
    the sign and the [0x] it skips), it returns NaN, both comparisons of
    [formatVolume] are false and the argument is returned as it is. *)
Theorem formatVolume_not_numeric (volume : string) :
  snd (Js.scan_int volume) = [] ->
  Js.parseInt volume = Js.NaN /\
  Js.ge (Js.parseInt volume) (Js.of_Z 1000000) = false /\
  Js.ge (Js.parseInt volume) (Js.of_Z 1000) = false /\
  formatVolume volume = volume.
Proof.
  intros H. apply parseInt_no_digits in H.
  rewrite H, !ge_nan_l.
  repeat split. apply formatVolume_nan, H.
Qed.

Lemma formatVolume_not_numeric_witness :
  snd (Js.scan_int "N/A") = [] /\ formatVolume "N/A" = "N/A" /\
  snd (Js.scan_int "") = [] /\ formatVolume "" = "".
Proof.
  assert (H1 : snd (Js.scan_int "N/A") = []) by reflexivity.
  assert (H2 : snd (Js.scan_int "") = []) by reflexivity.
  split; [exact H1 |].
  split; [exact (proj2 (proj2 (proj2 (formatVolume_not_numeric "N/A" H1)))) |].
  split; [exact H2 |].
  exact (proj2 (proj2 (proj2 (formatVolume_not_numeric "" H2)))).
Defined.

(** * Further properties of the event loop *)

(** ** One step of the loop *)

Section Steps.

Variable sys : System.

Lemma step_refresh_accepted :
  Js.ge (minPrice (component sys)) (maxPrice (component sys)) = false ->
  step sys RefreshData
  = {| component := set_error None (set_loading true (component sys));
       pending := (pending sys ++ [current_call (component sys)])%list;
       sent := (sent sys ++ [current_call (component sys)])%list |}.
Proof.
  intros H. cbn [step]. rewrite (refreshData_accepted _ H). reflexivity.
Qed.

Lemma step_refresh_rejected :
  Js.ge (minPrice (component sys)) (maxPrice (component sys)) = true ->
  step sys RefreshData
  = {| component :=
         set_error (Some "Minimum price must be less than maximum price")
           (component sys);
       pending := pending sys;
       sent := sent sys |}.
Proof.
  intros H. cbn [step]. rewrite (refreshData_rejected _ H).
  unfold perform. cbn [fst snd]. rewrite !app_nil_r. reflexivity.
Qed.

Lemma step_setPriceRange_accepted (min max : Js.number) :
  Js.ge min max = false ->
  step sys (SetPriceRange min max)
  = let this := set_maxPrice max (set_minPrice min (component sys)) in
    {| component := set_error None (set_loading true this);
       pending := (pending sys ++ [current_call this])%list;
       sent := (sent sys ++ [current_call this])%list |}.
Proof.
  intros H. cbn [step]. rewrite setPriceRange_unfold.
  rewrite refreshData_accepted by exact H. reflexivity.
Qed.

Lemma step_setPriceRange_rejected (min max : Js.number) :
  Js.ge min max = true ->
  step sys (SetPriceRange min max)
  = {| component :=
         set_error (Some "Minimum price must be less than maximum price")
           (set_maxPrice max (set_minPrice min (component sys)));
       pending := pending sys;
       sent := sent sys |}.
Proof.
  intros H. cbn [step]. rewrite setPriceRange_unfold.
  rewrite refreshData_rejected by exact H.
  unfold perform. cbn [fst snd]. rewrite !app_nil_r. reflexivity.
Qed.

Lemma step_complete (i : nat) (c : Completion) (x : ServiceCall) :
  nth_error (pending sys) i = Some x ->
  step sys (Complete i c)
  = {| component := callback c (component sys);
       pending := remove_nth i (pending sys);
       sent := sent sys |}.
Proof. intros H. cbn [step]. rewrite H. reflexivity. Qed.

End Steps.

Lemma nth_error_after {A : Type} (l l' : list A) (i : nat) :
  nth_error (l ++ l')%list (List.length l + i) = nth_error l' i.
Proof. induction l as [ | y l IH]; simpl; [reflexivity | exact IH]. Qed.

Lemma remove_nth_after {A : Type} (l l' : list A) (i : nat) :
  remove_nth (List.length l + i) (l ++ l')%list = (l ++ remove_nth i l')%list.
Proof.
  induction l as [ | y l IH]; simpl; [reflexivity | rewrite IH; reflexivity].
Qed.

Lemma run_cons (ev : Event) (evs : list Event) (sys : System) :
  run (ev :: evs) sys = run evs (step sys ev).
Proof. reflexivity. Qed.

Lemma run_nil (sys : System) : run [] sys = sys.
Proof. reflexivity. Qed.

(** ** Invariants of every run *)

(** X1.  After any sequence of operations and completions, [loading] is
    false as soon as no call is in flight: the flag never stays set once
    every call has completed. *)
Theorem loading_implies_call_in_flight (evs : list Event) :
  pending (run evs boot) = [] ->
  loading (component (run evs boot)) = false.
Proof. exact (idle_implies_not_loading evs). Qed.

Lemma loading_implies_call_in_flight_witness :
  let evs := [ NgOnInit; Complete 0 (Failed {| message := "timeout" |}) ] in
  pending (run evs boot) = [] /\
  loading (component (run evs boot)) = false.
Proof.
  intros evs.
  assert (P : pending (run evs boot) = []) by reflexivity.
  split; [exact P | exact (loading_implies_call_in_flight evs P)].
Defined.

(** X2.  The converse does not hold.  When two refreshes overlap, the first
    completion, whichever its outcome, resets [loading] although the other
    call is still in flight. *)
Theorem loading_reset_by_first_completion (sys : System) (c : Completion) :
  price_ordered (component sys) = true ->
  let sys' :=
    run [ RefreshData; RefreshData; Complete (List.length (pending sys)) c ]
        sys in
  loading (component sys') = false /\
  pending sys' = (pending sys ++ [current_call (component sys)])%list.
Proof.
  intros H sys'. subst sys'. apply lt_not_ge in H.
  rewrite run_cons, (step_refresh_accepted sys H).
  rewrite run_cons, step_refresh_accepted by exact H.
  rewrite run_cons, run_nil. cbn [pending component].
  erewrite step_complete; cbn [pending component].
  - split; [apply callback_not_loading |].
    rewrite <- app_assoc.
    rewrite <- (Nat.add_0_r (List.length (pending sys))).
    rewrite remove_nth_after. reflexivity.
  - rewrite <- app_assoc.
    rewrite <- (Nat.add_0_r (List.length (pending sys))).
    rewrite nth_error_after. reflexivity.
Qed.

Lemma loading_reset_by_first_completion_witness :
  price_ordered (component boot) = true /\
  let sys' :=
    run [ RefreshData; RefreshData; Complete 0 (Next sample_response) ] boot in
  loading (component sys') = false /\ pending sys' <> [].
Proof.
  assert (H : price_ordered (component boot) = true) by reflexivity.
  split; [exact H |].
  pose proof (loading_reset_by_first_completion boot
                (Next sample_response) H) as [L P].
  intros sys'. split; [exact L |].
  intros Q.
  assert (E : pending sys'
              = (pending boot ++ [current_call (component boot)])%list)
    by exact P.
  rewrite E in Q. discriminate Q.
Defined.

Lemma step_sent_length (sys : System) (ev : Event) :
  (List.length (sent (step sys ev))
   <= List.length (sent sys) + (if is_user_operation ev then 1 else 0))%nat.
Proof.
  assert (R : forall this,
             (List.length (snd (refreshData this)) <= 1)%nat).
  { intros this. unfold refreshData.
    destruct (Js.ge (minPrice this) (maxPrice this)); simpl; lia. }
  destruct ev as [ | | min max | i c]; cbn [step is_user_operation];
    try (unfold perform; cbn [sent]; rewrite length_app).
  - apply Nat.add_le_mono_l, R.
  - apply Nat.add_le_mono_l, R.
  - rewrite setPriceRange_unfold. apply Nat.add_le_mono_l, R.
  - destruct (nth_error (pending sys) i); cbn [sent]; lia.
Qed.

(** X3.  No retry, no polling: a run sends at most one call per operation of
    the user, and the completion of a call, failed or not, sends none. *)
Theorem calls_bounded_by_operations (evs : list Event) (sys : System) :
  (List.length (sent (run evs sys))
   <= List.length (sent sys) + user_operations evs)%nat /\
  (forall i c, sent (step sys (Complete i c)) = sent sys).
Proof.
  split.
  - revert sys. induction evs as [ | ev evs IH]; intros sys.
    + rewrite run_nil. unfold user_operations. simpl. lia.
    + rewrite run_cons. specialize (IH (step sys ev)).
      pose proof (step_sent_length sys ev) as S.
      unfold user_operations in *. cbn [filter].
      destruct (is_user_operation ev); cbn [List.length]; lia.
  - intros i c. cbn [step].
    destruct (nth_error (pending sys) i); reflexivity.
Qed.

Lemma deliveries_snoc (evs : list Event) (ev : Event) (sys : System) :
  deliveries (evs ++ [ev]) sys
  = (deliveries evs sys ++ delivered (run evs sys) ev)%list.
Proof.
  revert sys. induction evs as [ | e evs IH]; intros sys; simpl.
  - rewrite app_nil_r. reflexivity.
  - rewrite IH, app_assoc. reflexivity.
Qed.

Lemma error_shape_more (cs cs' : list Completion) (e : option string) :
  error_shape cs e -> error_shape (cs ++ cs') e.
Proof.
  intros [ | | err H]; constructor. apply in_or_app. left. exact H.
Qed.

Lemma refreshData_error_shape (cs : list Completion)
    (this : DashboardComponent.t) :
  error_shape cs (error (fst (refreshData this))).
Proof.
  unfold refreshData.
  destruct (Js.ge (minPrice this) (maxPrice this)); simpl; constructor.
Qed.

Lemma step_error_shape (cs : list Completion) (sys : System) (ev : Event) :
  error_shape cs (error (component sys)) ->
  error_shape (cs ++ delivered sys ev) (error (component (step sys ev))).
Proof.
  intros H.
  destruct ev as [ | | min max | i c]; cbn [step perform component delivered].
  - apply refreshData_error_shape.
  - apply refreshData_error_shape.
  - rewrite setPriceRange_unfold. apply refreshData_error_shape.
  - destruct (nth_error (pending sys) i); [ | apply error_shape_more, H].
    destruct c as [r | err]; cbn [component callback].
    + apply error_shape_more. exact H.
    + apply error_network. apply in_or_app. right. left. reflexivity.
Qed.

(** X4.  Whatever happened before, [error] is null, the validation message
    or "Failed to load market data: " followed by the message of one of the
    failures delivered during the run; in particular it is never the empty
    string. *)
Theorem error_always_shaped (evs : list Event) :
  error_shape (deliveries evs boot) (error (component (run evs boot))) /\
  error (component (run evs boot)) <> Some "".
Proof.
  assert (S : error_shape (deliveries evs boot)
                (error (component (run evs boot)))).
  { induction evs as [ | ev evs IH] using rev_ind.
    - constructor.
    - rewrite run_snoc, deliveries_snoc. apply step_error_shape, IH. }
  split; [exact S |].
  destruct S; discriminate.
Qed.

Lemma refreshData_displays (this : DashboardComponent.t)
    (r : option MarketDiscoveryResponse.t) :
  displays this r -> displays (fst (refreshData this)) r.
Proof.
  intros D. unfold refreshData.
  destruct (Js.ge (minPrice this) (maxPrice this)); destruct r; exact D.
Qed.

Lemma step_displays (sys : System) (ev : Event)
    (r : option MarketDiscoveryResponse.t) :
  displays (component sys) r ->
  displays (component (step sys ev)) (last_response (delivered sys ev) r).
Proof.
  intros D.
  destruct ev as [ | | min max | i c]; cbn [step perform component delivered].
  - apply refreshData_displays, D.
  - apply refreshData_displays, D.
  - rewrite setPriceRange_unfold. apply refreshData_displays.
    destruct r; exact D.
  - destruct (nth_error (pending sys) i); [ | exact D].
    destruct c as [r' | err]; cbn [component callback].
    + split; reflexivity.
    + destruct r; exact D.
Qed.

(** X5.  The list and the summary on display always belong together: they
    are the two fields of the last response delivered during the run, or the
    initial empty list and null summary when no call has succeeded yet.
    Failures, rejected refreshes and new calls leave them as they are. *)
Theorem display_from_one_response (evs : list Event) :
  displays (component (run evs boot))
    (last_response (deliveries evs boot) None).
Proof.
  induction evs as [ | ev evs IH] using rev_ind.
  - split; reflexivity.
  - rewrite run_snoc, deliveries_snoc. unfold last_response.
    rewrite fold_left_app. apply step_displays, IH.
Qed.

(** X6.  After any sequence of operations, every call that was sent carries
    bounds the guard of [refreshData] did not reject: [minPrice >= maxPrice]
    is false for it, and [minPrice < maxPrice] is true when neither bound is
    NaN. *)
Theorem sent_calls_pass_validation (evs : list Event) (c : ServiceCall) :
  In c (sent (run evs boot)) ->
  Js.ge (call_minPrice c) (call_maxPrice c) = false /\
  (Js.is_nan (call_minPrice c) = false ->
   Js.is_nan (call_maxPrice c) = false ->
   Js.lt (call_minPrice c) (call_maxPrice c) = true).
Proof.
  intros Hin. split.
  - pose proof (sent_passed_guard evs) as G.
    rewrite Forall_forall in G. exact (G c Hin).
  - intros Hmin Hmax. exact (sent_ordered_unless_nan evs c Hin Hmin Hmax).
Qed.

Lemma sent_calls_pass_validation_witness :
  let c := current_call init in
  In c (sent (run [NgOnInit] boot)) /\
  Js.ge (call_minPrice c) (call_maxPrice c) = false.
Proof.
  intros c.
  assert (H : In c (sent (run [NgOnInit] boot))) by (left; reflexivity).
  split; [exact H |].
  exact (proj1 (sent_calls_pass_validation [NgOnInit] c H)).
Defined.

(** No method of the component writes [maxStocks]. *)
Lemma refreshData_maxStocks (this : DashboardComponent.t) :
  maxStocks (fst (refreshData this)) = maxStocks this /\
  Forall (fun c => call_maxStocks c = maxStocks this) (snd (refreshData this)).
Proof.
  unfold refreshData.
  destruct (Js.ge (minPrice this) (maxPrice this)); simpl; split;
    try reflexivity; repeat constructor.
Qed.

Lemma step_maxStocks (v : Js.number) (sys : System) (ev : Event) :
  maxStocks (component sys) = v /\
  Forall (fun c => call_maxStocks c = v) (sent sys) ->
  maxStocks (component (step sys ev)) = v /\
  Forall (fun c => call_maxStocks c = v) (sent (step sys ev)).
Proof.
  intros [M F].
  assert (R : forall this, maxStocks this = v ->
             maxStocks (fst (refreshData this)) = v /\
             Forall (fun c => call_maxStocks c = v)
                    (sent sys ++ snd (refreshData this))%list).
  { intros this E. destruct (refreshData_maxStocks this) as [E1 E2].
    rewrite E in E1, E2. split; [exact E1 |].
    apply Forall_app. split; assumption. }
  destruct ev as [ | | min max | i c]; cbn [step perform component sent].
  - apply R, M.
  - apply R, M.
  - rewrite setPriceRange_unfold. apply R. exact M.
  - destruct (nth_error (pending sys) i); cbn [component sent];
      [ | split; assumption].
    split; [ | exact F]. destruct c; exact M.
Qed.

Lemma run_maxStocks (evs : list Event) :
  maxStocks (component (run evs boot)) = Js.of_Z 50 /\
  Forall (fun c => call_maxStocks c = Js.of_Z 50) (sent (run evs boot)).
Proof.
  induction evs as [ | ev evs IH] using rev_ind.
  - split; [reflexivity | constructor].
  - rewrite run_snoc. apply step_maxStocks, IH.
Qed.

(** X7.  After any sequence of operations and completions [maxStocks] is
    still 50, and every call sent asks for 50 stocks. *)
Theorem maxStocks_never_written (evs : list Event) :
  maxStocks (component (run evs boot)) = Js.of_Z 50 /\
  Forall (fun c => call_maxStocks c = Js.of_Z 50) (sent (run evs boot)).
Proof. exact (run_maxStocks evs). Qed.

(** X14.  Whatever happened before, [setPriceRange(min, max)] with
    [min < max] clears [error], sets [loading] and sends exactly one call,
    whose parameters are max_stocks=50 and the two bounds as [toString]
    prints them: the request depends on the arguments only. *)
Theorem accepted_range_request (evs : list Event) (min max : Js.number) :
  Js.lt min max = true ->
  let sys := run evs boot in
  let sys' := step sys (SetPriceRange min max) in
  let c := {| call_maxStocks := Js.of_Z 50;
              call_minPrice := min;
              call_maxPrice := max |} in
  sent sys' = (sent sys ++ [c])%list /\
  pending sys' = (pending sys ++ [c])%list /\
  params (request_of c)
  = [ ("max_stocks", "50");
      ("min_price", Js.toString min);
      ("max_price", Js.toString max) ] /\
  error (component sys') = None /\
  loading (component sys') = true /\
  minPrice (component sys') = min /\
  maxPrice (component sys') = max.
Proof.
  intros H sys sys' c. subst sys'.
  rewrite step_setPriceRange_accepted by (apply lt_not_ge, H).
  cbv zeta. unfold current_call. cbn [sent pending component].
  replace (maxStocks (set_maxPrice max (set_minPrice min (component sys))))
    with (Js.of_Z 50)
    by (symmetry; exact (proj1 (run_maxStocks evs))).
  fold c. split; [reflexivity |]. split; [reflexivity |].
  split; [ | repeat split].
  unfold request_of, TradingService.getMarketDiscovery, c.
  cbn [params call_maxStocks call_minPrice call_maxPrice].
  replace (Js.toString (Js.of_Z 50)) with "50"
    by (vm_compute; reflexivity).
  reflexivity.
Qed.

Lemma accepted_range_request_witness :
  Js.lt (Js.of_Z 10) (Js.of_Z 100) = true /\
  let sys :=
    run [ NgOnInit; Complete 0 (Failed {| message := "timeout" |}) ] boot in
  error (component (step sys (SetPriceRange (Js.of_Z 10) (Js.of_Z 100))))
  = None.
Proof.
  assert (H : Js.lt (Js.of_Z 10) (Js.of_Z 100) = true) by reflexivity.
  split; [exact H |].
  exact (proj1 (proj2 (proj2 (proj2
           (accepted_range_request
              [ NgOnInit; Complete 0 (Failed {| message := "timeout" |}) ]
              (Js.of_Z 10) (Js.of_Z 100) H))))).
Defined.

(** ** Overlapping calls *)

(** X8.  A late response overwrites a newer one.  When a refresh is followed
    by [setPriceRange(min, max)] with accepted bounds, and the second call
    completes before the first, the component ends up displaying the
    response of the first call, made for the former bounds, while its filter
    shows [min] and [max]. *)
Theorem late_response_overwrites (sys : System) (min max : Js.number)
    (r1 r2 : MarketDiscoveryResponse.t) :
  price_ordered (component sys) = true ->
  Js.lt min max = true ->
  let n := List.length (pending sys) in
  let sys' :=
    run [ RefreshData; SetPriceRange min max;
          Complete (n + 1) (Next r2); Complete n (Next r1) ] sys in
  displays (component sys') (Some r1) /\
  minPrice (component sys') = min /\
  maxPrice (component sys') = max /\
  loading (component sys') = false /\
  pending sys' = pending sys /\
  sent sys'
  = (sent sys ++
     [ current_call (component sys);
       {| call_maxStocks := maxStocks (component sys);
          call_minPrice := min;
          call_maxPrice := max |} ])%list.
Proof.
  intros H1 H2 n sys'. subst sys' n.
  apply lt_not_ge in H1. apply lt_not_ge in H2.
  rewrite run_cons, (step_refresh_accepted sys H1).
  rewrite run_cons, step_setPriceRange_accepted by exact H2.
  cbv zeta. cbn [pending component sent].
  rewrite run_cons. erewrite step_complete; cbn [pending component sent].
  2:{ rewrite <- app_assoc, nth_error_after. reflexivity. }
  rewrite <- app_assoc, remove_nth_after. cbn [remove_nth app].
  rewrite run_cons. erewrite step_complete; cbn [pending component sent].
  2:{ apply nth_error_last. }
  rewrite remove_nth_last, run_nil. cbn [component pending sent].
  rewrite <- app_assoc. repeat split.
Qed.

Lemma late_response_overwrites_witness :
  price_ordered (component boot) = true /\
  Js.lt (Js.of_Z 10) (Js.of_Z 100) = true /\
  let sys' :=
    run [ RefreshData; SetPriceRange (Js.of_Z 10) (Js.of_Z 100);
          Complete 1 (Next sample_response);
          Complete 0 (Next sample_response) ] boot in
  minPrice (component sys') = Js.of_Z 10.
Proof.
  assert (H1 : price_ordered (component boot) = true) by reflexivity.
  assert (H2 : Js.lt (Js.of_Z 10) (Js.of_Z 100) = true) by reflexivity.
  split; [exact H1 |]. split; [exact H2 |].
  exact (proj1 (proj2 (late_response_overwrites boot (Js.of_Z 10)
                         (Js.of_Z 100) sample_response sample_response
                         H1 H2))).
Defined.

(** X9.  A validation message outlives the success of a call in flight.
    When [setPriceRange] is called with rejected bounds while a call is
    pending and that call then succeeds, the new data is displayed and
    [loading] is reset, but [error] still holds the validation message. *)
Theorem validation_error_survives_success (sys : System)
    (min max : Js.number) (r : MarketDiscoveryResponse.t) :
  price_ordered (component sys) = true ->
  Js.ge min max = true ->
  let sys' :=
    run [ RefreshData; SetPriceRange min max;
          Complete (List.length (pending sys)) (Next r) ] sys in
  error (component sys')
  = Some "Minimum price must be less than maximum price" /\
  displays (component sys') (Some r) /\
  loading (component sys') = false /\
  sent sys' = (sent sys ++ [current_call (component sys)])%list.
Proof.
  intros H1 H2 sys'. subst sys'. apply lt_not_ge in H1.
  rewrite run_cons, (step_refresh_accepted sys H1).
  rewrite run_cons, step_setPriceRange_rejected by exact H2.
  cbn [pending component sent].
  rewrite run_cons. erewrite step_complete; cbn [pending component sent].
  2:{ apply nth_error_last. }
  rewrite run_nil. cbn [component sent]. repeat split.
Qed.

Lemma validation_error_survives_success_witness :
  price_ordered (component boot) = true /\
  Js.ge (Js.of_Z 100) (Js.of_Z 10) = true /\
  error (component
           (run [ RefreshData; SetPriceRange (Js.of_Z 100) (Js.of_Z 10);
                  Complete 0 (Next sample_response) ] boot))
  = Some "Minimum price must be less than maximum price".
Proof.
  assert (H1 : price_ordered (component boot) = true) by reflexivity.
  assert (H2 : Js.ge (Js.of_Z 100) (Js.of_Z 10) = true) by reflexivity.
  split; [exact H1 |]. split; [exact H2 |].
  exact (proj1 (validation_error_survives_success boot (Js.of_Z 100)
                  (Js.of_Z 10) sample_response H1 H2)).
Defined.

(** ** A call among the others in flight

    [refreshData] does not wait for the call before it: a call made by a
    refresh completes after any number of other operations and completions,
    and its callback finds the component as they left it. *)

Lemma remove_nth_before {A : Type} (l : list A) (j k : nat) :
  (j < k)%nat -> nth_error (remove_nth j l) (Nat.pred k) = nth_error l k.
Proof.
  revert j k. induction l as [ | y l IH]; intros j k H.
  - destruct j; cbn [remove_nth]; rewrite !nth_error_nil; reflexivity.
  - destruct k as [ | k]; [inversion H |].
    destruct j as [ | j]; cbn [remove_nth Nat.pred nth_error];
      [reflexivity |].
    destruct k as [ | k]; [lia |].
    apply (IH j (S k)). lia.
Qed.

Lemma remove_nth_behind {A : Type} (l : list A) (j k : nat) :
  (k < j)%nat -> nth_error (remove_nth j l) k = nth_error l k.
Proof.
  revert j k. induction l as [ | y l IH]; intros j k H.
  - destruct j; cbn [remove_nth]; rewrite !nth_error_nil; reflexivity.
  - destruct j as [ | j]; [inversion H |].
    destruct k as [ | k]; cbn [remove_nth nth_error]; [reflexivity |].
    apply IH. lia.
Qed.

Lemma step_pending_user (sys : System) (ev : Event) :
  is_user_operation ev = true ->
  exists calls, pending (step sys ev) = (pending sys ++ calls)%list.
Proof.
  destruct ev as [ | | min max | i c]; intros H; try discriminate H;
    cbn [step perform pending]; eexists; reflexivity.
Qed.

(** A call in flight stays in flight, at the place [track] gives, until it
    completes. *)
Lemma track_pending (evs : list Event) :
  forall (k : nat) (sys : System) (i : nat) (x : ServiceCall),
    nth_error (pending sys) k = Some x ->
    track k evs = Some i ->
    nth_error (pending (run evs sys)) i = Some x.
Proof.
  induction evs as [ | ev evs IH]; intros k sys i x P T.
  - injection T as <-. exact P.
  - rewrite run_cons.
    assert (U : is_user_operation ev = true ->
                nth_error (pending (step sys ev)) k = Some x).
    { intros H. destruct (step_pending_user sys ev H) as [calls ->].
      rewrite nth_error_app1; [exact P |].
      apply nth_error_Some. rewrite P. discriminate. }
    destruct ev as [ | | min max | j c]; cbn [track] in T;
      try (apply (IH k _ i x (U eq_refl) T)).
    destruct (Nat.ltb j k) eqn:L.
    + apply Nat.ltb_lt in L.
      apply (IH (Nat.pred k) _ i x); [ | exact T].
      cbn [step].
      destruct (nth_error (pending sys) j) eqn:J.
      * cbn [pending]. rewrite remove_nth_before by exact L. exact P.
      * apply nth_error_None in J.
        assert (k < List.length (pending sys))%nat
          by (apply nth_error_Some; rewrite P; discriminate).
        lia.
    + apply Nat.ltb_ge in L.
      destruct (Nat.eqb j k) eqn:E; [discriminate T |].
      apply Nat.eqb_neq in E.
      apply (IH k _ i x); [ | exact T].
      cbn [step].
      destruct (nth_error (pending sys) j) eqn:J; [ | exact P].
      cbn [pending]. rewrite remove_nth_behind by lia. exact P.
Qed.

Lemma refreshData_data (this : DashboardComponent.t) :
  opportunities (fst (refreshData this)) = opportunities this /\
  summary (fst (refreshData this)) = summary this.
Proof.
  unfold refreshData.
  destruct (Js.ge (minPrice this) (maxPrice this)); split; reflexivity.
Qed.

Lemma step_data (sys : System) (ev : Event) :
  match last_response (delivered sys ev) None with
  | None =>
      opportunities (component (step sys ev)) = opportunities (component sys)
      /\ summary (component (step sys ev)) = summary (component sys)
  | Some r => displays (component (step sys ev)) (Some r)
  end.
Proof.
  destruct ev as [ | | min max | i c];
    cbn [step perform component delivered last_response fold_left].
  - apply refreshData_data.
  - apply refreshData_data.
  - rewrite setPriceRange_unfold.
    destruct (refreshData_data
                (set_maxPrice max (set_minPrice min (component sys))))
      as [-> ->].
    split; reflexivity.
  - destruct (nth_error (pending sys) i);
      cbn [last_response fold_left]; [ | split; reflexivity].
    destruct c as [r | err]; cbn [component callback]; split; reflexivity.
Qed.

(** The data on display after a run are those of the last response
    delivered in it, and those from before the run when no call
    succeeded. *)
Lemma run_kept_or_replaced (evs : list Event) (sys : System) :
  kept_or_replaced (component sys) (component (run evs sys))
    (deliveries evs sys).
Proof.
  unfold kept_or_replaced.
  induction evs as [ | ev evs IH] using rev_ind.
  - split; reflexivity.
  - rewrite run_snoc, deliveries_snoc. unfold last_response in *.
    rewrite fold_left_app.
    pose proof (step_data (run evs sys) ev) as D.
    unfold last_response in D.
    destruct ev as [ | | min max | i c]; cbn [delivered fold_left] in *.
    4: destruct (nth_error (pending (run evs sys)) i);
         [destruct c as [r' | err] | ]; cbn [fold_left] in *.
    all: try exact D.
    all: destruct (fold_left _ (deliveries evs sys) None) as [r | ];
      destruct IH as [IH1 IH2], D as [D1 D2];
      (split; [rewrite D1; exact IH1 | rewrite D2; exact IH2]).
Qed.

Lemma last_response_in (cs : list Completion) :
  forall (d : option MarketDiscoveryResponse.t)
         (r : MarketDiscoveryResponse.t),
    last_response cs d = Some r -> In (Next r) cs \/ d = Some r.
Proof.
  unfold last_response.
  induction cs as [ | c cs IH]; intros d r H; cbn [fold_left] in H.
  - right. exact H.
  - destruct (IH _ _ H) as [I | E].
    + left. right. exact I.
    + destruct c as [r' | err].
      * left. left. congruence.
      * right. exact E.
Qed.

(** A run in which nothing assigns a message to [error] leaves it null. *)
Lemma step_error_unwritten (sys : System) (ev : Event) :
  error (component sys) = None ->
  writes_error sys ev = false ->
  error (component (step sys ev)) = None.
Proof.
  intros E W.
  destruct ev as [ | | min max | i c]; cbn [writes_error] in W.
  - change (step sys NgOnInit) with (step sys RefreshData).
    rewrite (step_refresh_accepted sys W). reflexivity.
  - rewrite (step_refresh_accepted sys W). reflexivity.
  - rewrite (step_setPriceRange_accepted sys min max W). reflexivity.
  - cbn [step]. destruct (nth_error (pending sys) i); [ | exact E].
    destruct c as [r | err]; [exact E | discriminate W].
Qed.

Lemma run_error_unwritten (evs : list Event) :
  forall sys : System,
    error (component sys) = None ->
    error_written evs sys = false ->
    error (component (run evs sys)) = None.
Proof.
  induction evs as [ | ev evs IH]; intros sys E W.
  - exact E.
  - cbn [error_written] in W. apply orb_false_iff in W as [W1 W2].
    rewrite run_cons. apply IH; [ | exact W2].
    apply step_error_unwritten; assumption.
Qed.

Lemma refresh_call_pending (sys : System) :
  price_ordered (component sys) = true ->
  nth_error (pending (step sys RefreshData)) (List.length (pending sys))
  = Some (current_call (component sys)) /\
  error (component (step sys RefreshData)) = None /\
  loading (component (step sys RefreshData)) = true /\
  opportunities (component (step sys RefreshData))
  = opportunities (component sys) /\
  summary (component (step sys RefreshData)) = summary (component sys).
Proof.
  intros H. apply lt_not_ge in H.
  rewrite (step_refresh_accepted sys H). cbn [pending component].
  rewrite nth_error_last. repeat split.
Qed.

(** C4.  A refresh with [minPrice < maxPrice] makes a call, which is in
    flight until it completes, whatever happens in between ([evs]).  When it
    fails with [err], [error] is "Failed to load market data: " followed by
    [err.message] (so it is not empty and contains the cause), [loading] is
    false, and [opportunities] and [summary] are what they were when the
    failure arrived.  These are the values from before the call when no call
    succeeded in between, and otherwise the two fields of the last response
    that arrived in between. *)
Theorem failure_after_refresh (sys : System) (evs : list Event) (i : nat)
    (err : HttpErrorResponse) :
  price_ordered (component sys) = true ->
  track (List.length (pending sys)) evs = Some i ->
  let sys0 := step sys RefreshData in
  let sys1 := run evs sys0 in
  let sys2 := step sys1 (Complete i (Failed err)) in
  nth_error (pending sys1) i = Some (current_call (component sys)) /\
  pending sys2 = remove_nth i (pending sys1) /\
  error (component sys2)
  = Some ("Failed to load market data: " ++ message err) /\
  error (component sys2) <> Some "" /\
  error (component sys2) <> None /\
  loading (component sys2) = false /\
  opportunities (component sys2) = opportunities (component sys1) /\
  summary (component sys2) = summary (component sys1) /\
  kept_or_replaced (component sys) (component sys2) (deliveries evs sys0) /\
  ((forall r, ~ In (Next r) (deliveries evs sys0)) ->
   opportunities (component sys2) = opportunities (component sys) /\
   summary (component sys2) = summary (component sys)).
Proof.
  intros H T sys0 sys1 sys2.
  destruct (refresh_call_pending sys H) as (P0 & _ & _ & O0 & S0).
  assert (P1 : nth_error (pending sys1) i
               = Some (current_call (component sys))).
  { exact (track_pending evs _ sys0 i _ P0 T). }
  assert (E2 : sys2
               = {| component := callback (Failed err) (component sys1);
                    pending := remove_nth i (pending sys1);
                    sent := sent sys1 |}).
  { exact (step_complete sys1 i (Failed err) _ P1). }
  assert (K : kept_or_replaced (component sys) (component sys2)
                (deliveries evs sys0)).
  { pose proof (run_kept_or_replaced evs sys0) as K.
    fold sys1 in K. unfold kept_or_replaced in *.
    rewrite E2. cbn [component callback].
    destruct (last_response (deliveries evs sys0) None) as [r | ].
    - exact K.
    - destruct K as [K1 K2]. fold sys0 in O0, S0.
      split; cbn; [rewrite <- O0 | rewrite <- S0]; assumption. }
  split; [exact P1 |].
  rewrite E2 at 1 2 3 4 5 6 7. cbn [component pending callback].
  split; [reflexivity |].
  split; [reflexivity |].
  split; [discriminate |].
  split; [discriminate |].
  split; [reflexivity |].
  split; [reflexivity |].
  split; [reflexivity |].
  split; [exact K |].
  intros N. unfold kept_or_replaced in K.
  destruct (last_response (deliveries evs sys0) None) as [r | ] eqn:L.
  - apply last_response_in in L. destruct L as [L | L]; [ | discriminate L].
    destruct (N r L).
  - exact K.
Qed.

Lemma failure_after_refresh_witness :
  price_ordered (component boot) = true /\
  track (List.length (pending boot))
    [SetPriceRange (Js.of_Z 10) (Js.of_Z 100)] = Some 0%nat /\
  error (component
           (run [ RefreshData; SetPriceRange (Js.of_Z 10) (Js.of_Z 100);
                  Complete 0 (Failed {| message := "timeout" |}) ] boot))
  = Some "Failed to load market data: timeout".
Proof.
  assert (H : price_ordered (component boot) = true) by reflexivity.
  assert (T : track (List.length (pending boot))
                [SetPriceRange (Js.of_Z 10) (Js.of_Z 100)] = Some 0%nat)
    by reflexivity.
  split; [exact H |]. split; [exact T |].
  exact (proj1 (proj2 (proj2
           (failure_after_refresh boot
              [SetPriceRange (Js.of_Z 10) (Js.of_Z 100)] 0
              {| message := "timeout" |} H T)))).
Defined.

(** The data are not always those from before the call.  Two refreshes in a
    row: the call of the first succeeds, then the call of the second fails.
    The second refresh found the initial empty list and null summary; after
    the failure of its call the component shows the response to the
    first. *)
Lemma failure_after_late_success :
  let before := run [RefreshData] boot in
  let between := [Complete 0 (Next sample_response)] in
  let after :=
    run (RefreshData :: between ++
         [Complete 0 (Failed {| message := "timeout" |})])%list before in
  price_ordered (component before) = true /\
  track (List.length (pending before)) between = Some 0%nat /\
  opportunities (component before) = [] /\
  summary (component before) = None /\
  error (component after) = Some "Failed to load market data: timeout" /\
  loading (component after) = false /\
  pending after = [] /\
  opportunities (component after) <> opportunities (component before) /\
  summary (component after) <> summary (component before).
Proof.
  cbv zeta.
  split; [reflexivity |]. split; [reflexivity |].
  split; [reflexivity |]. split; [reflexivity |].
  split; [reflexivity |]. split; [reflexivity |].
  split; [reflexivity |].
  split; discriminate.
Qed.

(** C5.  A refresh with [minPrice < maxPrice] clears [error] and makes a
    call, which is in flight until it completes, whatever happens in between
    ([evs]).  When it succeeds with [response], [opportunities] and
    [summary] are the two fields of the response and [loading] is false.
    The callback does not write [error]: it is what it was when the response
    arrived, which is null when in between no call failed and no refresh was
    rejected. *)
Theorem success_after_refresh (sys : System) (evs : list Event) (i : nat)
    (response : MarketDiscoveryResponse.t) :
  price_ordered (component sys) = true ->
  track (List.length (pending sys)) evs = Some i ->
  let sys0 := step sys RefreshData in
  let sys1 := run evs sys0 in
  let sys2 := step sys1 (Complete i (Next response)) in
  nth_error (pending sys1) i = Some (current_call (component sys)) /\
  pending sys2 = remove_nth i (pending sys1) /\
  error (component sys0) = None /\
  opportunities (component sys2)
  = MarketDiscoveryResponse.opportunities response /\
  summary (component sys2)
  = Some (MarketDiscoveryResponse.summary response) /\
  loading (component sys2) = false /\
  error (component sys2) = error (component sys1) /\
  (error_written evs sys0 = false -> error (component sys2) = None).
Proof.
  intros H T sys0 sys1 sys2.
  destruct (refresh_call_pending sys H) as (P0 & E0 & _).
  assert (P1 : nth_error (pending sys1) i
               = Some (current_call (component sys))).
  { exact (track_pending evs _ sys0 i _ P0 T). }
  assert (E2 : sys2
               = {| component := callback (Next response) (component sys1);
                    pending := remove_nth i (pending sys1);
                    sent := sent sys1 |}).
  { exact (step_complete sys1 i (Next response) _ P1). }
  split; [exact P1 |].
  rewrite E2. cbn [component pending callback].
  split; [reflexivity |].
  split; [exact E0 |].
  split; [reflexivity |].
  split; [reflexivity |].
  split; [reflexivity |].
  split; [reflexivity |].
  intros W. exact (run_error_unwritten evs sys0 E0 W).
Qed.

Lemma success_after_refresh_witness :
  price_ordered (component boot) = true /\
  track (List.length (pending boot))
    [SetPriceRange (Js.of_Z 10) (Js.of_Z 100)] = Some 0%nat /\
  opportunities
    (component
       (run [ RefreshData; SetPriceRange (Js.of_Z 10) (Js.of_Z 100);
              Complete 0 (Next sample_response) ] boot))
  = MarketDiscoveryResponse.opportunities sample_response.
Proof.
  assert (H : price_ordered (component boot) = true) by reflexivity.
  assert (T : track (List.length (pending boot))
                [SetPriceRange (Js.of_Z 10) (Js.of_Z 100)] = Some 0%nat)
    by reflexivity.
  split; [exact H |]. split; [exact T |].
  exact (proj1 (proj2 (proj2 (proj2
           (success_after_refresh boot
              [SetPriceRange (Js.of_Z 10) (Js.of_Z 100)] 0
              sample_response H T))))).
Defined.

(** [error] is not always null.  Two refreshes in a row: the call of the
    first fails, then the call of the second succeeds.  The component shows
    the response and is not loading, and [error] still holds the message of
    the failure. *)
Lemma success_after_late_failure :
  let before := run [RefreshData] boot in
  let between := [Complete 0 (Failed {| message := "timeout" |})] in
  let after :=
    run (RefreshData :: between ++
         [Complete 0 (Next sample_response)])%list before in
  price_ordered (component before) = true /\
  track (List.length (pending before)) between = Some 0%nat /\
  displays (component after) (Some sample_response) /\
  loading (component after) = false /\
  pending after = [] /\
  error (component after) = Some "Failed to load market data: timeout" /\
  error (component after) <> None.
Proof.
  cbv zeta.
  split; [reflexivity |]. split; [reflexivity |].
  split; [split; reflexivity |].
  split; [reflexivity |]. split; [reflexivity |].
  split; [reflexivity |]. discriminate.
Qed.

(** ** Strings *)

Lemma length_append (s1 s2 : string) :
  String.length (s1 ++ s2) = (String.length s1 + String.length s2)%nat.
Proof.
  induction s1 as [ | c s1 IH]; simpl; [reflexivity | rewrite IH; reflexivity].
Qed.

Lemma append_cancel_r (s1 s2 t : string) :
  s1 ++ t = s2 ++ t -> s1 = s2.
Proof.
  revert s2. induction s1 as [ | c s1 IH]; intros s2 H.
  - destruct s2 as [ | d s2]; [reflexivity | exfalso].
    apply (f_equal String.length) in H. simpl in H.
    rewrite length_append in H. lia.
  - destruct s2 as [ | d s2].
    + exfalso. apply (f_equal String.length) in H. simpl in H.
      rewrite length_append in H. lia.
    + simpl in H. injection H as -> H. f_equal. apply IH, H.
Qed.

(** ** Presentation helpers, continued *)

Lemma thousand_K_checked :
  forallb
    (fun i =>
       String.eqb
         (Js.toFixed (Js.div (Js.of_Z (999950 + Z.of_nat i)) (Js.of_Z 1000)) 1)
         "1000.0")
    (seq 0 50) = true.
Proof. vm_compute. reflexivity. Qed.

(** X10.  The "K" form does not roll over to "M": every argument whose
    integer is between 999950 and 999999 is printed as "1000.0K". *)
Theorem formatVolume_thousand_K (volume : string) (n : Z) :
  read_integer volume = Some n ->
  999950 <= n <= 999999 ->
  formatVolume volume = "1000.0K".
Proof.
  intros E Hn. unfold formatVolume.
  rewrite (parseInt_ge volume n 1000000 E) by lia.
  rewrite (parseInt_ge volume n 1000 E) by lia.
  replace (1000000 <=? n) with false by (symmetry; apply Z.leb_gt; lia).
  replace (1000 <=? n) with true by (symmetry; apply Z.leb_le; lia).
  rewrite (parseInt_read_integer volume n E) by lia.
  pose proof thousand_K_checked as C. rewrite forallb_forall in C.
  specialize (C (Z.to_nat (n - 999950))).
  replace (999950 + Z.of_nat (Z.to_nat (n - 999950))) with n in C by lia.
  rewrite (proj1 (String.eqb_eq _ _) (C ltac:(apply in_seq; lia))).
  reflexivity.
Qed.

Lemma formatVolume_thousand_K_witness :
  read_integer " 999975 shares" = Some 999975 /\
  999950 <= 999975 <= 999999 /\
  formatVolume " 999975 shares" = "1000.0K".
Proof.
  assert (E : read_integer " 999975 shares" = Some 999975) by reflexivity.
  assert (B : 999950 <= 999975 <= 999999) by lia.
  split; [exact E |]. split; [exact B |].
  exact (formatVolume_thousand_K " 999975 shares" 999975 E B).
Defined.

(** X11.  Two recommendations that get the same class other than "neutral"
    are the same label: the four labels are told apart. *)
Theorem getRecommendationClass_injective (a b : string) :
  getRecommendationClass a = getRecommendationClass b ->
  getRecommendationClass a <> "neutral" ->
  a = b.
Proof.
  unfold getRecommendationClass.
  destruct (String.eqb_spec a "STRONG BUY") as [-> | A1];
    [ | destruct (String.eqb_spec a "BUY") as [-> | A2];
        [ | destruct (String.eqb_spec a "WEAK BUY") as [-> | A3];
            [ | destruct (String.eqb_spec a "HOLD") as [-> | A4];
                [ | intros _ N; exfalso; apply N; reflexivity ] ] ] ];
    (destruct (String.eqb_spec b "STRONG BUY") as [-> | B1];
     [ | destruct (String.eqb_spec b "BUY") as [-> | B2];
         [ | destruct (String.eqb_spec b "WEAK BUY") as [-> | B3];
             [ | destruct (String.eqb_spec b "HOLD") as [-> | B4] ] ] ]);
    intros E _; try reflexivity; discriminate E.
Qed.

Lemma getRecommendationClass_injective_witness :
  getRecommendationClass "HOLD" = getRecommendationClass "HOLD" /\
  getRecommendationClass "HOLD" <> "neutral".
Proof.
  assert (E : getRecommendationClass "HOLD" = getRecommendationClass "HOLD")
    by reflexivity.
  assert (N : getRecommendationClass "HOLD" <> "neutral") by discriminate.
  pose proof (getRecommendationClass_injective "HOLD" "HOLD" E N) as _.
  split; [exact E | exact N].
Defined.

(** ** The division of two integers *)

Lemma digits2_pos_unique (p : positive) (d : Z) :
  2 ^ (d - 1) <= Z.pos p < 2 ^ d -> 0 < d -> Z.pos (digits2_pos p) = d.
Proof.
  intros [L U] Hd. destruct (digits2_pos_bounds p) as [L' U'].
  pose proof (Pos2Z.is_pos (digits2_pos p)) as P.
  destruct (Z.lt_trichotomy (Z.pos (digits2_pos p)) d) as [C | [C | C]];
    [exfalso | exact C | exfalso].
  - assert (2 ^ Z.pos (digits2_pos p) <= 2 ^ (d - 1))
      by (apply Z.pow_le_mono_r; lia).
    lia.
  - assert (2 ^ d <= 2 ^ (Z.pos (digits2_pos p) - 1))
      by (apply Z.pow_le_mono_r; lia).
    lia.
Qed.

Lemma loc_of_shr_record_of_loc (m : Z) (l : location) :
  loc_of_shr_record (shr_record_of_loc m l) = l.
Proof. destruct l as [ | [ | | ]]; reflexivity. Qed.

Lemma shr_m_of_loc (m : Z) (l : location) :
  shr_m (shr_record_of_loc m l) = m.
Proof. destruct l as [ | [ | | ]]; reflexivity. Qed.

Lemma round_nearest_even_range (m : Z) (l : location) :
  m <= round_nearest_even m l <= m + 1.
Proof.
  destruct l as [ | [ | | ]]; simpl; try lia.
  destruct (Z.even m); lia.
Qed.

Lemma shr_1_half (mrs : shr_record) :
  0 <= shr_m mrs -> shr_m (shr_1 mrs) = shr_m mrs / 2.
Proof.
  destruct mrs as [m r s]. simpl.
  destruct m as [ | [p | p | ] | p]; simpl; intros H.
  - reflexivity.
  - apply Z.div_unique with (r := 1); lia.
  - apply Z.div_unique with (r := 0); lia.
  - reflexivity.
  - lia.
Qed.

(** A significand of 53 bits is left as it is. *)
Lemma shr_fexp_53 (m e : Z) (l : location) :
  2 ^ 52 <= m < 2 ^ 53 -> -1074 <= e ->
  shr_fexp Js.prec Js.emax m e l = (shr_record_of_loc m l, e).
Proof.
  intros Hm He. unfold shr_fexp.
  destruct m as [ | p | p]; try lia.
  cbn [Zdigits2]. rewrite (digits2_pos_unique p 53) by lia.
  rewrite fexp_normal by exact He. reflexivity.
Qed.

(** A significand of 54 bits loses its last bit. *)
Lemma shr_fexp_54 (m e : Z) (l : location) :
  2 ^ 53 <= m < 2 ^ 54 -> -1074 <= e ->
  shr_fexp Js.prec Js.emax m e l = (shr_1 (shr_record_of_loc m l), e + 1).
Proof.
  intros Hm He. unfold shr_fexp.
  destruct m as [ | p | p]; try lia.
  cbn [Zdigits2]. rewrite (digits2_pos_unique p 54) by lia.
  replace (fexp Js.prec Js.emax (54 + e) - e) with 1
    by (unfold fexp, emin, Js.prec, Js.emax; lia).
  reflexivity.
Qed.

(** The last two steps of a rounding, from a significand of 53 bits: the
    result is the significand or its successor. *)
Lemma round_53 (s : bool) (m e : Z) (l : location) :
  2 ^ 52 <= m < 2 ^ 53 -> -1074 <= e <= 960 ->
  exists (mr : positive) (j : Z),
    (let m1 := round_nearest_even m l in
     let '(mrs, e') := shr_fexp Js.prec Js.emax m1 e loc_Exact in
     match shr_m mrs with
     | 0 => S754_zero s
     | Z.pos p =>
         if e' <=? Js.emax - Js.prec then S754_finite s p e'
         else S754_infinity s
     | Z.neg _ => S754_nan
     end) = S754_finite s mr (e + j) /\
    0 <= j <= 1 /\
    m <= Z.pos mr * 2 ^ j <= m + 1.
Proof.
  intros Hm He. cbv zeta.
  pose proof (round_nearest_even_range m l) as R.
  set (m1 := round_nearest_even m l) in *. clearbody m1.
  destruct (Z_lt_le_dec m1 (2 ^ 53)) as [C | C].
  - rewrite shr_fexp_53 by lia. cbn [shr_record_of_loc shr_m].
    destruct m1 as [ | p | p]; try lia.
    exists p, 0. rewrite Z.add_0_r.
    replace (e <=? Js.emax - Js.prec) with true
      by (symmetry; apply Z.leb_le; unfold Js.emax, Js.prec; lia).
    split; [reflexivity |]. split; [lia |].
    rewrite Z.pow_0_r, Z.mul_1_r. lia.
  - assert (E : m1 = 2 ^ 53) by lia. subst m1.
    rewrite shr_fexp_54 by lia.
    exists (2 ^ 52)%positive, 1.
    replace (e + 1 <=? Js.emax - Js.prec) with true
      by (symmetry; apply Z.leb_le; unfold Js.emax, Js.prec; lia).
    split; [reflexivity |]. split; [lia |].
    change (Z.pos (2 ^ 52) * 2 ^ 1) with (2 ^ 53). lia.
Qed.

(** Rounding a significand of 53 or 54 bits moves it by less than two units
    of its last place. *)
Lemma binary_round_aux_enclosure (s : bool) (q e : Z) (l : location) :
  2 ^ 52 <= q < 2 ^ 54 -> -1074 <= e <= 950 ->
  exists (mr : positive) (j : Z),
    binary_round_aux Js.prec Js.emax s q e l = S754_finite s mr (e + j) /\
    0 <= j <= 2 /\
    q - 1 <= Z.pos mr * 2 ^ j <= q + 2.
Proof.
  intros Hq He. unfold binary_round_aux.
  destruct (Z_lt_le_dec q (2 ^ 53)) as [C | C].
  - rewrite shr_fexp_53 by lia.
    rewrite loc_of_shr_record_of_loc, shr_m_of_loc.
    destruct (round_53 s q e l) as (mr & j & E & Hj & V); try lia.
    exists mr, j. split; [exact E |]. split; lia.
  - rewrite shr_fexp_54 by lia.
    assert (H : shr_m (shr_1 (shr_record_of_loc q l)) = q / 2)
      by (rewrite shr_1_half; rewrite shr_m_of_loc; [reflexivity | lia]).
    rewrite H.
    assert (B : 2 ^ 52 <= q / 2 < 2 ^ 53).
    { split.
      - apply Z.div_le_lower_bound; lia.
      - apply Z.div_lt_upper_bound; lia. }
    destruct (round_53 s (q / 2) (e + 1)
                (loc_of_shr_record (shr_1 (shr_record_of_loc q l))))
      as (mr & j & E & Hj & V); try lia.
    exists mr, (1 + j). rewrite Z.add_assoc.
    split; [exact E |]. split; [lia |].
    rewrite Z.pow_add_r by lia. change (2 ^ 1) with 2.
    pose proof (Z.div_mod q 2 ltac:(lia)) as DM.
    pose proof (Z.mod_pos_bound q 2 ltac:(lia)) as MB.
    lia.
Qed.

(** The quotient of two positive integers below 2^53: a significand [mr]
    and an exponent [j - L], where [L] is fixed by the sizes of the two
    integers, within two units of the last place of the exact quotient. *)
Lemma div_of_Z_enclosure (n b : positive) :
  Z.pos n < 2 ^ 53 -> Z.pos b < 2 ^ 53 ->
  let L := 53 + Z.pos (digits2_pos b) - Z.pos (digits2_pos n) in
  exists (mr : positive) (j q : Z),
    Js.div (Js.of_Z (Z.pos n)) (Js.of_Z (Z.pos b))
    = S754_finite false mr (j - L) /\
    0 <= j <= 2 /\
    q - 1 <= Z.pos mr * 2 ^ j <= q + 2 /\
    2 ^ 52 <= q /\
    q * Z.pos b <= Z.pos n * 2 ^ L < (q + 1) * Z.pos b.
Proof.
  intros Hn Hb L.
  rewrite (of_Z_pos n Hn), (of_Z_pos b Hb).
  pose proof (aligned_spec n Hn) as A. pose proof (aligned_spec b Hb) as B.
  pose proof (digits2_pos_le_prec n Hn) as Ln.
  pose proof (digits2_pos_le_prec b Hb) as Lb.
  pose proof (Pos2Z.is_pos (digits2_pos n)) as Pn.
  pose proof (Pos2Z.is_pos (digits2_pos b)) as Pb.
  destruct (aligned n) as [ma ea], (aligned b) as [mb eb].
  destruct A as (Da & Ea & Va), B as (Db & Eb & Vb).
  cbn [fst snd]. unfold Js.div, SFdiv, SFdiv_core_binary.
  cbn [Zdigits2 xorb]. rewrite Da, Db.
  replace (Z.min (fexp Js.prec Js.emax (53 + ea - (53 + eb))) (ea - eb))
    with (ea - eb - 53)
    by (unfold fexp, emin, Js.prec, Js.emax; lia).
  replace (ea - eb - (ea - eb - 53)) with 53 by lia.
  cbv iota. rewrite Z.shiftl_mul_pow2 by lia.
  pose proof (Z_div_mod (Z.pos ma * 2 ^ 53) (Z.pos mb) ltac:(lia)) as DM.
  destruct (Z.div_eucl (Z.pos ma * 2 ^ 53) (Z.pos mb)) as [q r].
  destruct DM as [DM R].
  pose proof (digits2_pos_bounds ma) as Ba. rewrite Da in Ba.
  pose proof (digits2_pos_bounds mb) as Bb. rewrite Db in Bb.
  change (2 ^ (53 - 1)) with (2 ^ 52) in Ba, Bb.
  assert (Q : 2 ^ 52 <= q < 2 ^ 54) by nia.
  destruct (binary_round_aux_enclosure false q (ea - eb - 53)
              (new_location (Z.pos mb) r) Q ltac:(lia))
    as (mr & j & E & Hj & V).
  exists mr, j, q.
  replace (j - L) with (ea - eb - 53 + j) by (unfold L; lia).
  split; [exact E |]. split; [exact Hj |]. split; [exact V |].
  split; [lia |].
  (* back from the aligned significands to the integers *)
  assert (PL : 2 ^ L * 2 ^ (- eb) = 2 ^ 53 * 2 ^ (- ea)).
  { rewrite <- !Z.pow_add_r by (unfold L; lia). f_equal. unfold L. lia. }
  assert (Pa : 0 < 2 ^ (- ea)) by (apply Z.pow_pos_nonneg; lia).
  assert (Pe : 0 < 2 ^ (- eb)) by (apply Z.pow_pos_nonneg; lia).
  assert (K : Z.pos n * 2 ^ L * 2 ^ (- eb) = Z.pos ma * 2 ^ 53) by nia.
  split.
  - apply (Z.mul_le_mono_pos_r _ _ (2 ^ (- eb)) Pe). nia.
  - apply (Z.mul_lt_mono_pos_r (2 ^ (- eb)) _ _ Pe). nia.
Qed.

(** ** One decimal of a quotient *)

Lemma Qpower_2_neg (p : positive) :
  (Qpower 2 (Z.neg p) == 1 # (2 ^ p))%Q.
Proof.
  change (Z.neg p) with (- Z.pos p). rewrite Qpower_opp.
  rewrite <- (Zpower_Qpower 2 (Z.pos p)) by lia.
  rewrite <- Pos2Z.inj_pow. reflexivity.
Qed.

Lemma to_Q_finite_neg (mr p : positive) :
  (Js.to_Q (S754_finite false mr (Z.neg p)) == Z.pos mr # (2 ^ p))%Q.
Proof.
  unfold Js.to_Q. rewrite Qpower_2_neg.
  unfold Qeq, Qmult, inject_Z. cbn [Qnum Qden]. lia.
Qed.

Lemma nearest_scaled_finite (mr p : positive) :
  Js.nearest_scaled (Js.to_Q (S754_finite false mr (Z.neg p))) 1
  = (20 * Z.pos mr + Z.pos (2 ^ p)) / (2 * Z.pos (2 ^ p)).
Proof.
  unfold Js.nearest_scaled.
  assert (E : (Js.to_Q (S754_finite false mr (Z.neg p))
               * Qpower 10 (Z.of_nat 1) + (1 # 2)
               == (20 * Z.pos mr + Z.pos (2 ^ p)) # (2 * 2 ^ p))%Q).
  { rewrite to_Q_finite_neg.
    change (Qpower 10 (Z.of_nat 1)) with (10 # 1)%Q.
    unfold Qeq, Qmult, Qplus. cbn [Qnum Qden]. lia. }
  rewrite E. reflexivity.
Qed.

(** A positive number with a negative exponent, below 10^21, is printed
    from its nearest multiple of 1/10. *)
Lemma toFixed_finite (mr p : positive) :
  Z.pos mr < 10 ^ 21 * Z.pos (2 ^ p) ->
  Js.toFixed (S754_finite false mr (Z.neg p)) 1
  = fixed_digits
      ((20 * Z.pos mr + Z.pos (2 ^ p)) / (2 * Z.pos (2 ^ p))) 1.
Proof.
  intros H. unfold Js.toFixed. cbn [SFabs].
  rewrite nearest_scaled_finite.
  assert (S : Qle_bool 0 (Js.to_Q (S754_finite false mr (Z.neg p))) = true).
  { apply Qle_bool_iff. rewrite to_Q_finite_neg.
    unfold Qle. cbn [Qnum Qden]. lia. }
  assert (B : Qle_bool (Qpower 10 21)
                (Js.to_Q (S754_finite false mr (Z.neg p))) = false).
  { apply not_true_is_false. intros C. apply Qle_bool_iff in C.
    rewrite to_Q_finite_neg in C.
    rewrite <- (Zpower_Qpower 10 21) in C by lia.
    unfold Qle, inject_Z in C. cbn [Qnum Qden] in C. lia. }
  rewrite S, B. reflexivity.
Qed.

(** The quotient of [n] by [b = 20 * h], printed with one decimal: the
    integer [N] printed (in tenths) is a nearest one to the exact quotient,
    [|N * b / 10 - n| <= b / 20]. *)
Lemma div_one_decimal (n b h : Z) :
  b = 20 * h -> 0 < h -> b <= n < 10 ^ 15 ->
  exists N : Z,
    Js.toFixed (Js.div (Js.of_Z n) (Js.of_Z b)) 1 = fixed_digits N 1 /\
    - h <= 2 * h * N - n <= h.
Proof.
  intros Eb Hh Hn.
  destruct n as [ | n | n]; try lia. destruct b as [ | b | b]; try lia.
  assert (Bn : Z.pos n < 2 ^ 53) by lia.
  assert (Bb : Z.pos b < 2 ^ 53) by lia.
  destruct (div_of_Z_enclosure n b Bn Bb) as (mr & j & q & E & Hj & V & Q & I).
  set (L := 53 + Z.pos (digits2_pos b) - Z.pos (digits2_pos n)) in *.
  clearbody L. cbv zeta in E.
  (* the unit of the last place is small *)
  assert (D4 : 4 * Z.pos b < 2 ^ L).
  { destruct (Z_lt_le_dec (4 * Z.pos b) (2 ^ L)) as [ | C]; [assumption |].
    exfalso. destruct I as [I1 _].
    assert (A1 : 2 ^ 52 * Z.pos b <= q * Z.pos b)
      by (apply Z.mul_le_mono_nonneg_r; lia).
    assert (A2 : Z.pos n * 2 ^ L <= Z.pos n * (4 * Z.pos b))
      by (apply Z.mul_le_mono_nonneg_l; lia).
    assert (A3 : Z.pos n * (4 * Z.pos b) < 10 ^ 15 * (4 * Z.pos b))
      by (apply Z.mul_lt_mono_pos_r; lia).
    assert (A4 : 10 ^ 15 * 4 < 2 ^ 52) by reflexivity.
    assert (A5 : 10 ^ 15 * 4 * Z.pos b < 2 ^ 52 * Z.pos b)
      by (apply Z.mul_lt_mono_pos_r; lia).
    lia. }
  assert (L3 : 2 < L).
  { destruct (Z_lt_le_dec 2 L) as [ | C]; [assumption | exfalso].
    destruct (Z_lt_le_dec L 0) as [N0 | N0].
    - rewrite (Z.pow_neg_r 2 L N0) in D4. lia.
    - assert (2 ^ L <= 2 ^ 2) by (apply Z.pow_le_mono_r; lia).
      change (2 ^ 2) with 4 in *. lia. }
  destruct (j - L) as [ | p | p] eqn:Ep; try lia.
  assert (P : Z.pos (2 ^ p) * 2 ^ j = 2 ^ L).
  { rewrite Pos2Z.inj_pow, <- Z.pow_add_r by lia. f_equal. lia. }
  assert (J : 0 < 2 ^ j) by (apply Z.pow_pos_nonneg; lia).
  set (Pz := Z.pos (2 ^ p)) in *.
  assert (Pp : 0 < Pz) by (unfold Pz; lia).
  exists ((20 * Z.pos mr + Pz) / (2 * Pz)).
  split.
  - rewrite E. apply toFixed_finite. fold Pz.
    destruct I as [I1 _].
    assert (B1 : q * 1 <= q * Z.pos b)
      by (apply Z.mul_le_mono_nonneg_l; lia).
    assert (B2 : Z.pos mr * 2 ^ j <= Z.pos n * Pz * 2 ^ j + 2)
      by (rewrite <- Z.mul_assoc, P; lia).
    assert (B3 : 2 <= 2 * 2 ^ j) by lia.
    assert (B4 : Z.pos mr * 2 ^ j <= (Z.pos n * Pz + 2) * 2 ^ j)
      by (rewrite Z.mul_add_distr_r; lia).
    assert (B5 : Z.pos mr <= Z.pos n * Pz + 2)
      by (apply (Z.mul_le_mono_pos_r _ _ (2 ^ j)); lia).
    assert (B6 : Z.pos n * Pz <= 10 ^ 15 * Pz)
      by (apply Z.mul_le_mono_nonneg_r; lia).
    assert (B7 : 10 ^ 15 + 2 < 10 ^ 21) by reflexivity.
    assert (B8 : 2 <= 2 * Pz) by lia.
    replace (10 ^ 21 * Pz) with (10 ^ 15 * Pz + (10 ^ 21 - 10 ^ 15) * Pz)
      by ring.
    assert (B9 : 2 < 10 ^ 21 - 10 ^ 15) by reflexivity.
    assert (B10 : 2 * Pz < (10 ^ 21 - 10 ^ 15) * Pz)
      by (apply Z.mul_lt_mono_pos_r; lia).
    lia.
  - pose proof (Z.mul_div_le (20 * Z.pos mr + Pz) (2 * Pz) ltac:(lia)) as Lo.
    pose proof (Z.mul_succ_div_gt (20 * Z.pos mr + Pz) (2 * Pz) ltac:(lia))
      as Hi.
    set (N := (20 * Z.pos mr + Pz) / (2 * Pz)) in *. clearbody N.
    set (T := 2 ^ j) in *. set (D := 2 ^ L) in *.
    set (M := Z.pos mr) in *. set (n' := Z.pos n) in *.
    assert (Eb' : Z.pos b = 20 * h) by exact Eb. rewrite Eb' in *.
    clearbody T D M n' Pz. clear E Ep Bn Bb.
    (* in units of the last place *)
    assert (Lo' : 2 * D * N <= 20 * (M * T) + D).
    { rewrite <- P.
      replace (2 * (Pz * T) * N) with (2 * Pz * N * T) by ring.
      replace (20 * (M * T) + Pz * T) with ((20 * M + Pz) * T) by ring.
      apply Z.mul_le_mono_nonneg_r; lia. }
    assert (Hi' : 20 * (M * T) + D < 2 * D * N + 2 * D).
    { rewrite <- P.
      replace (20 * (M * T) + Pz * T) with ((20 * M + Pz) * T) by ring.
      replace (2 * (Pz * T) * N + 2 * (Pz * T))
        with (2 * Pz * Z.succ N * T) by ring.
      apply Z.mul_lt_mono_pos_r; lia. }
    set (V' := M * T) in *. clearbody V'.
    assert (Lo2 : 2 * D * N * h <= (20 * (q + 2) + D) * h)
      by (apply Z.mul_le_mono_nonneg_r; lia).
    assert (Hi2 : (20 * (q - 1) + D) * h < (2 * D * N + 2 * D) * h)
      by (apply Z.mul_lt_mono_pos_r; lia).
    destruct I as [I1 I2].
    split.
    + destruct (Z_le_gt_dec (- h) (2 * h * N - n')) as [ | C];
        [assumption | exfalso].
      assert (C' : (2 * h * N) * D <= (n' - h - 1) * D)
        by (apply Z.mul_le_mono_nonneg_r; lia).
      lia.
    + destruct (Z_le_gt_dec (2 * h * N - n') h) as [ | C];
        [assumption | exfalso].
      assert (C' : (n' + h + 1) * D <= (2 * h * N) * D)
        by (apply Z.mul_le_mono_nonneg_r; lia).
      lia.
Qed.

(** ** The decimal digits of an integer *)

Lemma string_of_uint_digits (u : Decimal.uint) :
  NilEmpty.string_of_uint u = string_of_digits (DecimalFacts.to_list u).
Proof. induction u; simpl; try rewrite IHu; reflexivity. Qed.

Lemma string_of_digits_app (l1 l2 : list DecimalFacts.digits) :
  string_of_digits (l1 ++ l2)%list
  = string_of_digits l1 ++ string_of_digits l2.
Proof.
  induction l1 as [ | d l1 IH]; simpl; [reflexivity | rewrite IH; reflexivity].
Qed.

Lemma NilZero_string_of_uint (u : Decimal.uint) :
  u <> Decimal.Nil ->
  NilZero.string_of_uint u = string_of_digits (DecimalFacts.to_list u).
Proof.
  intros H. rewrite <- string_of_uint_digits.
  destruct u; [contradiction | reflexivity ..].
Qed.

(** One digit. *)
Lemma to_uint_digit (k : N) :
  (k < 10)%N ->
  exists d, DecimalFacts.to_list (N.to_uint k) = [d].
Proof.
  intros H.
  assert (C : (k = 0 \/ k = 1 \/ k = 2 \/ k = 3 \/ k = 4 \/ k = 5 \/ k = 6 \/
               k = 7 \/ k = 8 \/ k = 9)%N) by lia.
  repeat (destruct C as [-> | C]; [eexists; reflexivity |]).
  subst k. eexists. reflexivity.
Qed.

(** The digits of a positive number start with a digit other than 0. *)
Lemma to_uint_head (a : N) :
  (0 < a)%N ->
  DecimalFacts.lnzhead (DecimalFacts.to_list (N.to_uint a))
  = DecimalFacts.to_list (N.to_uint a) /\
  DecimalFacts.to_list (N.to_uint a) <> [].
Proof.
  intros H.
  assert (U : Decimal.unorm (N.to_uint a) = N.to_uint a).
  { rewrite <- (DecimalN.Unsigned.to_of (N.to_uint a)).
    rewrite DecimalN.Unsigned.of_to. reflexivity. }
  apply (f_equal DecimalFacts.to_list) in U.
  rewrite DecimalFacts.unorm_spec in U. unfold DecimalFacts.lunorm in U.
  destruct (DecimalFacts.lnzhead (DecimalFacts.to_list (N.to_uint a)))
    as [ | h t] eqn:E.
  - exfalso.
    assert (Z0 : N.to_uint a = Decimal.zero)
      by (apply DecimalFacts.to_list_inj; symmetry; exact U).
    apply (f_equal N.of_uint) in Z0.
    rewrite DecimalN.Unsigned.of_to in Z0. simpl in Z0. lia.
  - split; [exact U |]. rewrite <- U. discriminate.
Qed.

Lemma of_lu_digit (k : N) (u : Decimal.uint) :
  (k < 10)%N ->
  DecimalPos.Unsigned.of_lu (Decimal.app (Decimal.rev (N.to_uint k)) u)
  = (k + 10 * DecimalPos.Unsigned.of_lu u)%N.
Proof.
  intros H.
  assert (C : (k = 0 \/ k = 1 \/ k = 2 \/ k = 3 \/ k = 4 \/ k = 5 \/
               k = 6 \/ k = 7 \/ k = 8 \/ k = 9)%N) by lia.
  repeat (destruct C as [-> | C]; [reflexivity |]).
  subst k. reflexivity.
Qed.

Lemma to_uint_snoc (a k : N) :
  (0 < a)%N -> (k < 10)%N ->
  DecimalFacts.to_list (N.to_uint (10 * a + k))
  = (DecimalFacts.to_list (N.to_uint a)
     ++ DecimalFacts.to_list (N.to_uint k))%list.
Proof.
  intros Ha Hk.
  set (d := Decimal.app (N.to_uint a) (N.to_uint k)).
  assert (V : N.of_uint d = (10 * a + k)%N).
  { unfold N.of_uint. rewrite DecimalPos.Unsigned.of_uint_alt.
    assert (R : Decimal.rev d
                = Decimal.app (Decimal.rev (N.to_uint k))
                    (Decimal.rev (N.to_uint a))).
    { apply DecimalFacts.to_list_inj. unfold d.
      rewrite DecimalFacts.rev_spec, !DecimalFacts.app_spec,
        !DecimalFacts.rev_spec.
      apply rev_app_distr. }
    rewrite R.
    assert (A : DecimalPos.Unsigned.of_lu (Decimal.rev (N.to_uint a)) = a).
    { rewrite <- DecimalPos.Unsigned.of_uint_alt.
      exact (DecimalN.Unsigned.of_to a). }
    rewrite of_lu_digit, A by exact Hk. lia. }
  rewrite <- V, DecimalN.Unsigned.to_of, DecimalFacts.unorm_spec.
  unfold d. rewrite DecimalFacts.app_spec.
  destruct (to_uint_head a Ha) as [Hh Hn].
  destruct (DecimalFacts.to_list (N.to_uint a)) as [ | h t];
    [contradiction |].
  unfold DecimalFacts.lunorm. cbn [List.app].
  assert (N0 : h <> DecimalFacts.d0).
  { intros ->. exact (DecimalFacts.lnzhead_neq_d0_head _ _ Hh). }
  rewrite DecimalFacts.lnzhead_head_nd0 by exact N0. reflexivity.
Qed.

Lemma to_uint_nonnil (n : N) : N.to_uint n <> Decimal.Nil.
Proof.
  destruct n as [ | p]; [discriminate |].
  apply DecimalPos.Unsigned.to_uint_nonnil.
Qed.

Lemma decimal_digits (n : Z) :
  Js.decimal n
  = string_of_digits (DecimalFacts.to_list (N.to_uint (Z.to_N n))).
Proof. apply NilZero_string_of_uint, to_uint_nonnil. Qed.

Lemma decimal_one_char (k : Z) :
  0 <= k < 10 -> exists c, Js.decimal k = String c "".
Proof.
  intros H. rewrite decimal_digits.
  destruct (to_uint_digit (Z.to_N k)) as [d ->]; [lia |].
  eexists. reflexivity.
Qed.

(** The digits of [n] are those of [n / 10] followed by the digit
    [n mod 10]. *)
Lemma decimal_split (n : Z) :
  10 <= n -> Js.decimal n = Js.decimal (n / 10) ++ Js.decimal (n mod 10).
Proof.
  intros H. rewrite !decimal_digits, <- string_of_digits_app.
  pose proof (Z.div_mod n 10 ltac:(lia)) as DM.
  pose proof (Z.mod_pos_bound n 10 ltac:(lia)) as MB.
  assert (Q : 1 <= n / 10) by (apply Z.div_le_lower_bound; lia).
  replace (Z.to_N n)
    with (10 * Z.to_N (n / 10) + Z.to_N (n mod 10))%N by lia.
  rewrite to_uint_snoc by lia. reflexivity.
Qed.

Lemma substring_prefix (s1 s2 : string) :
  substring 0 (String.length s1) (s1 ++ s2) = s1.
Proof.
  induction s1 as [ | c s1 IH]; simpl.
  - destruct s2; reflexivity.
  - rewrite IH. reflexivity.
Qed.

Lemma substring_suffix (s1 s2 : string) :
  substring (String.length s1) (String.length s2) (s1 ++ s2) = s2.
Proof.
  induction s1 as [ | c s1 IH]; simpl; [ | exact IH].
  induction s2 as [ | c s2 IH]; simpl; [reflexivity |].
  rewrite IH. reflexivity.
Qed.

(** With one decimal, [toFixed] prints the tenths [n] as the integer part
    [n / 10], a point and the digit [n mod 10]. *)
Lemma fixed_digits_1 (n : Z) :
  0 <= n ->
  fixed_digits n 1 = Js.decimal (n / 10) ++ "." ++ Js.decimal (n mod 10).
Proof.
  intros H. unfold fixed_digits. cbn [Nat.eqb].
  pose proof (Z.mod_pos_bound n 10 ltac:(lia)) as MB.
  destruct (Z_lt_le_dec n 10) as [S | L].
  - rewrite Z.div_small, Z.mod_small by lia.
    destruct (decimal_one_char n ltac:(lia)) as [c ->]. reflexivity.
  - rewrite (decimal_split n L).
    destruct (decimal_one_char (n mod 10) MB) as [c ->].
    set (s1 := Js.decimal (n / 10)).
    assert (N1 : (1 <= String.length s1)%nat).
    { unfold s1. rewrite decimal_digits.
      destruct (to_uint_head (Z.to_N (n / 10))) as [_ Hn].
      - assert (1 <= n / 10) by (apply Z.div_le_lower_bound; lia). lia.
      - destruct (DecimalFacts.to_list (N.to_uint (Z.to_N (n / 10))));
          [contradiction | simpl; lia]. }
    rewrite length_append. cbn [String.length].
    replace (Nat.leb (String.length s1 + 1) 1) with false
      by (symmetry; apply Nat.leb_gt; lia).
    unfold Js.take, Js.drop. rewrite length_append. cbn [String.length].
    replace (String.length s1 + 1 - 1)%nat with (String.length s1) by lia.
    replace (String.length s1 + 1 - String.length s1)%nat
      with (String.length (String c "")) by (simpl; lia).
    rewrite substring_prefix, substring_suffix. reflexivity.
Qed.

(** X13.  The abbreviation is accurate to half a unit of its last digit.
    For an argument whose integer [n] is between 1000 and 10^15, the text
    printed is an integer part, a point, one digit and "K" or "M", and the
    number of tenths [N] it shows is a nearest one: [N] hundreds (of
    thousands, for "M") differ from [n] by at most 50 (50000). *)
Theorem formatVolume_accuracy (volume : string) (n : Z) :
  read_integer volume = Some n ->
  (1000 <= n < 1000000 ->
   exists N : Z,
     10 <= N /\
     formatVolume volume
     = (Js.decimal (N / 10) ++ "." ++ Js.decimal (N mod 10)) ++ "K" /\
     - 50 <= 100 * N - n <= 50) /\
  (1000000 <= n < 10 ^ 15 ->
   exists N : Z,
     10 <= N /\
     formatVolume volume
     = (Js.decimal (N / 10) ++ "." ++ Js.decimal (N mod 10)) ++ "M" /\
     - 50000 <= 100000 * N - n <= 50000).
Proof.
  intros E.
  assert (B15 : 10 ^ 15 < 2 ^ 53) by reflexivity.
  split; intros Hn; unfold formatVolume;
    rewrite (parseInt_ge volume n 1000000 E) by lia;
    rewrite ?(parseInt_ge volume n 1000 E) by lia;
    rewrite (parseInt_read_integer volume n E) by lia.
  - replace (1000000 <=? n) with false by (symmetry; apply Z.leb_gt; lia).
    replace (1000 <=? n) with true by (symmetry; apply Z.leb_le; lia).
    destruct (div_one_decimal n 1000 50) as (N & P & A); try lia.
    exists N. assert (N10 : 10 <= N) by lia.
    split; [exact N10 |]. split; [ | lia].
    rewrite P, fixed_digits_1 by lia. reflexivity.
  - replace (1000000 <=? n) with true by (symmetry; apply Z.leb_le; lia).
    destruct (div_one_decimal n 1000000 50000) as (N & P & A); try lia.
    exists N. assert (N10 : 10 <= N) by lia.
    split; [exact N10 |]. split; [ | lia].
    rewrite P, fixed_digits_1 by lia. reflexivity.
Qed.

Lemma formatVolume_accuracy_witness :
  read_integer "1234567" = Some 1234567 /\
  1000000 <= 1234567 < 10 ^ 15 /\
  exists N : Z,
    10 <= N /\
    formatVolume "1234567"
    = (Js.decimal (N / 10) ++ "." ++ Js.decimal (N mod 10)) ++ "M" /\
    - 50000 <= 100000 * N - 1234567 <= 50000.
Proof.
  assert (E : read_integer "1234567" = Some 1234567) by reflexivity.
  assert (B : 1000000 <= 1234567 < 10 ^ 15)
    by (split; [discriminate | reflexivity]).
  split; [exact E |]. split; [exact B |].
  exact (proj2 (formatVolume_accuracy "1234567" 1234567 E) B).
Defined.

(** ** The launcher and the client *)

(** X12.  The address the launcher announces for the API (and the port it
    gives the backend) is the base URL of the client exactly when [PORT] is
    unset, empty or 5050: the client keeps calling port 5050 when the
    backend is started on another port. *)
Theorem client_matches_launcher (env : Launcher.environment) :
  Launcher.api_address env ++ "/api" = TradingService.apiUrl <->
  (env "PORT" = None \/ env "PORT" = Some "" \/ env "PORT" = Some "5050").
Proof.
  unfold Launcher.api_address, Launcher.BACKEND_PORT, Launcher.or_default,
    TradingService.apiUrl.
  split.
  - intros H. destruct (env "PORT") as [[ | c p] | ]; auto.
    right; right. f_equal.
    apply (append_cancel_r (String c p) "5050" "/api").
    cbn [append] in H. injection H as -> H.
    cbn [append]. f_equal. exact H.
  - intros [-> | [-> | ->]]; reflexivity.
Qed.
